(** * Search orchestration engine of the knowledge-base retrieval backend

    A shallow embedding of [backend/services/search_service.py] and
    [backend/services/reranking_service.py], with the parts of
    [vector_service.py] and [fulltext_service.py] they call.

    - Python [float] is IEEE-754 binary64: scores are primitive floats and
      every arithmetic step and comparison of the source is kept.
    - Python [str] is a sequence of code points ([pystr]); [len], slicing,
      [in] and [split] work on code points.  Names that are only compared
      (strategy names, dictionary keys) are plain [string]s.
    - [try]/[except] is an [outcome]: a call either returns or raises.
    - External collaborators (Milvus, the reranking service, the encoder
      followed by DBSCAN, the query log) are fields of [Services];
      everything proved holds for every behaviour of theirs. *)

From Stdlib Require Import Floats ZArith NArith Bool String Ascii Lia List.
From Stdlib Require Import Permutation Sorted DecimalString.
Import ListNotations.

Set Implicit Arguments.

(** ** Python strings *)

Module PyStr.

Definition pystr := list N.

(** Decoding of the UTF-8 bytes of a literal into code points, so that the
    keyword tables below read as they do in the source. *)
Fixpoint utf8_decode (bs : list N) : pystr :=
  match bs with
  | [] => []
  | b0 :: t0 =>
    if (b0 <? 128)%N then b0 :: utf8_decode t0
    else
      match t0 with
      | [] => [b0]
      | b1 :: t1 =>
        if (b0 <? 224)%N then
          N.lor (N.shiftl (N.land b0 31) 6) (N.land b1 63) :: utf8_decode t1
        else
          match t1 with
          | [] => [b0; b1]
          | b2 :: t2 =>
            if (b0 <? 240)%N then
              N.lor (N.shiftl (N.land b0 15) 12)
                (N.lor (N.shiftl (N.land b1 63) 6) (N.land b2 63))
              :: utf8_decode t2
            else
              match t2 with
              | [] => [b0; b1; b2]
              | b3 :: t3 =>
                N.lor (N.shiftl (N.land b0 7) 18)
                  (N.lor (N.shiftl (N.land b1 63) 12)
                     (N.lor (N.shiftl (N.land b2 63) 6) (N.land b3 63)))
                :: utf8_decode t3
              end
          end
      end
  end.

Definition lit (s : string) : pystr :=
  utf8_decode (map N_of_ascii (list_ascii_of_string s)).

Definition str_eq_dec : forall a b : pystr, {a = b} + {a <> b} :=
  list_eq_dec N.eq_dec.

Definition str_eqb (a b : pystr) : bool :=
  if str_eq_dec a b then true else false.

Fixpoint starts_with (needle hay : pystr) : bool :=
  match needle, hay with
  | [], _ => true
  | _ :: _, [] => false
  | a :: needle', b :: hay' => (a =? b)%N && starts_with needle' hay'
  end.

(** [needle in hay] on strings: substring test. *)
Fixpoint py_in (needle hay : pystr) : bool :=
  match hay with
  | [] => match needle with [] => true | _ :: _ => false end
  | _ :: hay' => starts_with needle hay || py_in needle hay'
  end.

(** [str.isspace] of a single code point. *)
Definition is_space (c : N) : bool :=
  ((9 <=? c) && (c <=? 13) || (28 <=? c) && (c <=? 32)
   || (c =? 133) || (c =? 160) || (c =? 5760)
   || (8192 <=? c) && (c <=? 8202)
   || (c =? 8232) || (c =? 8233) || (c =? 8239) || (c =? 8287)
   || (c =? 12288))%N.

(** [s.split()]: maximal runs of non-space code points, [cur] being the run
    read so far. *)
Fixpoint split_from (cur s : pystr) : list pystr :=
  match s with
  | [] => match cur with [] => [] | _ :: _ => [cur] end
  | c :: s' =>
    if is_space c then
      match cur with
      | [] => split_from [] s'
      | _ :: _ => cur :: split_from [] s'
      end
    else split_from (cur ++ [c]) s'
  end.

Definition py_split (s : pystr) : list pystr := split_from [] s.

(** [l[:n]] with Python's reading of a negative bound. *)
Definition slice_to {A : Type} (l : list A) (n : Z) : list A :=
  if (n <? 0)%Z
  then firstn (Z.to_nat (Z.of_nat (length l) + n)) l
  else firstn (Z.to_nat n) l.

(** [l[-n:]] for a positive [n]. *)
Definition slice_last {A : Type} (n : nat) (l : list A) : list A :=
  skipn (length l - n) l.

(** [str(z)] of an integer. *)
Definition str_of_Z (z : Z) : pystr :=
  map N_of_ascii (list_ascii_of_string (NilEmpty.string_of_int (Z.to_int z))).

Definition len {A : Type} (l : list A) : Z := Z.of_nat (length l).

End PyStr.
Import PyStr.

(** ** Exceptions *)

Inductive exn : Type :=
| ValueError (msg : pystr)
| IndexError
| ZeroDivisionError
| NameError (name : string)
| ServiceError (detail : string).

Inductive outcome (A : Type) : Type :=
| Returned (a : A)
| Raised (e : exn).
Arguments Returned {A} a.
Arguments Raised {A} e.

Definition bind {A B : Type} (m : outcome A) (k : A -> outcome B) : outcome B :=
  match m with
  | Returned a => k a
  | Raised e => Raised e
  end.

(** [try: body  except Exception as e: handler e]. *)
Definition try_except {A : Type} (body : outcome A) (handler : exn -> outcome A)
  : outcome A :=
  match body with
  | Returned a => Returned a
  | Raised e => handler e
  end.

Declare Scope outcome_scope.
Delimit Scope outcome_scope with outcome.
Notation "x <- m ;; k" := (bind m (fun x => k))
  (at level 61, m at next level, right associativity) : outcome_scope.

(** ** Floats as Python uses them *)

Module PyFloat.

Local Open Scope float_scope.

(** [float(z)] for a count (all counts here are list lengths, far below
    2^53, where the conversion is exact). *)
Definition of_nat (n : nat) : float := PrimFloat.of_uint63 (Uint63.of_Z (Z.of_nat n)).

(** [float(z)] for a sum of result counts (exact below 2^53, where
    [int / int] is the quotient of the two conversions). *)
Definition of_Z (z : Z) : float :=
  if (z <? 0)%Z then - PrimFloat.of_uint63 (Uint63.of_Z (- z))
  else PrimFloat.of_uint63 (Uint63.of_Z z).

(** [a / b]: Python raises on a zero divisor. *)
Definition div (a b : float) : outcome float :=
  if b =? 0 then Raised ZeroDivisionError else Returned (a / b).

(** [sum(xs)] over floats, starting from the integer 0. *)
Definition sum (xs : list float) : float := fold_left PrimFloat.add xs 0.

(** The builtin [min(a, b)] and [max(a, b)]: the first argument is kept
    unless the second compares strictly beyond it. *)
Definition min2 (a b : float) : float := if b <? a then b else a.
Definition max2 (a b : float) : float := if a <? b then b else a.

End PyFloat.

(** ** Python's stable sort and [max] with a float key *)

Section KeyedOrder.

Variable A : Type.
Variable key : A -> float.

(** [x] goes before the first element whose key is not above its own, so
    equal keys keep their input order. *)
Fixpoint insert_desc (x : A) (l : list A) : list A :=
  match l with
  | [] => [x]
  | y :: l' => if (key x <? key y)%float then y :: insert_desc x l' else x :: l
  end.

(** [sorted(l, key=key, reverse=True)] and [l.sort(key=key, reverse=True)],
    for keys that are not NaN. *)
Definition sort_desc (l : list A) : list A := fold_right insert_desc [] l.

(** [max(l, key=key)]: the first element with the largest key. *)
Definition max_from (x : A) (l : list A) : A :=
  fold_left (fun best y => if (key best <? key y)%float then y else best) l x.

Definition max_by (l : list A) : option A :=
  match l with
  | [] => None
  | x :: l' => Some (max_from x l')
  end.

End KeyedOrder.

(** ** Python dictionaries, in insertion order *)

Section Dict.

Variables K V : Type.
Variable eqb : K -> K -> bool.

Definition dict := list (K * V).

(** [d.get(k)], [None] standing for an absent key. *)
Fixpoint lookup (d : dict) (k : K) : option V :=
  match d with
  | [] => None
  | (k', v) :: d' => if eqb k' k then Some v else lookup d' k
  end.

(** [d[k] = v]: an existing key keeps its place, a new one goes last. *)
Fixpoint assign (d : dict) (k : K) (v : V) : dict :=
  match d with
  | [] => [(k, v)]
  | (k', v') :: d' =>
    if eqb k' k then (k', v) :: d' else (k', v') :: assign d' k v
  end.

Definition keys (d : dict) : list K := map fst d.

End Dict.

(** ** Strategy selector *)

Module Strategy.

Local Open Scope string_scope.
Local Open Scope float_scope.

(** A [dict] from strategy name to score. *)
Definition scores := dict string float.

(** [d.get(k, default)]. *)
Definition get (d : scores) (k : string) (default : float) : float :=
  match lookup String.eqb d k with
  | Some v => v
  | None => default
  end.

Definition set (d : scores) (k : string) (v : float) : scores :=
  assign String.eqb d k v.

(** [d[k] += v] for a key that is present. *)
Definition incr (d : scores) (k : string) (v : float) : scores :=
  set d k (get d k 0 + v).

(** The double quote (code point 34) and the single quote. *)
Definition quote_chars : list pystr := [[34%N]; lit "'"].

Definition special_chars : list pystr :=
  map lit [":"; "/"; "+"; "-"; "&"; "|"; "!"; "("; ")"; "*"].

Definition definition_terms : list pystr :=
  map lit ["定义"; "是什么"; "概念"; "解释"; "含义"].

Definition operation_terms : list pystr :=
  map lit ["如何"; "怎么"; "方法"; "步骤"; "流程"; "教程"].

Definition comparison_terms : list pystr :=
  map lit ["比较"; "区别"; "差异"; "优缺点"; "vs"; "versus"].

Definition open_terms : list pystr :=
  map lit ["为什么"; "原因"; "影响"; "作用"; "意义"].

(** [any(term in query for term in terms)]. *)
Definition any_in (terms : list pystr) (query : pystr) : bool :=
  existsb (fun term => py_in term query) terms.

Definition _analyze_query_features (query : pystr) : scores :=
  let scores := [("semantic", 0.0); ("fulltext", 0.0); ("hybrid", 0.5)] in
  let query_length := len query in
  let scores :=
    if (query_length <? 5)%Z then incr scores "fulltext" 0.4
    else if ((5 <=? query_length) && (query_length <=? 10))%Z
         then incr scores "hybrid" 0.2
         else incr scores "semantic" 0.3 in
  let scores :=
    if any_in quote_chars query then incr scores "fulltext" 0.5 else scores in
  let scores :=
    if any_in special_chars query then incr scores "fulltext" 0.3 else scores in
  let scores :=
    if any_in definition_terms query then incr scores "fulltext" 0.4
    else scores in
  let scores :=
    if any_in operation_terms query
    then incr (incr scores "fulltext" 0.3) "hybrid" 0.1 else scores in
  let scores :=
    if any_in comparison_terms query
    then incr (incr scores "semantic" 0.3) "hybrid" 0.2 else scores in
  let scores :=
    if any_in open_terms query then incr scores "semantic" 0.4 else scores in
  let words := py_split query in
  let scores :=
    if (7 <? len words)%Z then incr scores "semantic" 0.2 else scores in
  scores.

(** An entry of [analytics_service.search_logs]. *)
Record SearchLog : Type := {
  log_query : pystr;
  log_strategy : string;
  log_response_time : float;
  log_result_count : Z
}.

Definition py_set (l : list pystr) : list pystr := nodup str_eq_dec l.

(** [len(a & b) / len(a | b)] of two token sets. *)
Definition keyword_overlap (keywords log_keywords : list pystr) : float :=
  let common :=
    List.filter (fun w => existsb (str_eqb w) log_keywords) keywords in
  PyFloat.of_nat (length common)
  / PyFloat.of_nat (length keywords + length log_keywords - length common).

Definition _find_similar_queries (search_logs : list SearchLog) (query : pystr)
    (limit : Z) : list SearchLog :=
  let keywords := py_set (py_split query) in
  let recent_logs := slice_last 100 search_logs in
  let similar_queries :=
    flat_map
      (fun log =>
         let log_keywords := py_set (py_split (log_query log)) in
         match log_keywords with
         | [] => []
         | _ :: _ =>
           let overlap := keyword_overlap keywords log_keywords in
           if 0.3 <? overlap then [(overlap, log)] else []
         end)
      recent_logs in
  map snd (slice_to (sort_desc fst similar_queries) limit).

(** The score of one strategy over its matching logs (the body of the loop
    over strategies). *)
Definition strategy_performance (strategy_logs : list SearchLog) : outcome float :=
  let n := PyFloat.of_nat (length strategy_logs) in
  (avg_response_time <-
     PyFloat.div (PyFloat.sum (map log_response_time strategy_logs)) n ;;
   time_score <- PyFloat.div 1.0 (1.0 + avg_response_time) ;;
   avg_result_count <-
     PyFloat.div
       (PyFloat.of_Z (fold_left Z.add (map log_result_count strategy_logs) 0%Z))
       n ;;
   let result_count_score :=
     if (1 <=? avg_result_count) && (avg_result_count <=? 20)
     then 0.3 else 0.0 in
   Returned (time_score * 0.7 + result_count_score * 0.3))%outcome.

Fixpoint performance_of (similar_queries : list SearchLog)
    (strategies : list string) : outcome scores :=
  match strategies with
  | [] => Returned []
  | strategy :: rest =>
    let strategy_logs :=
      List.filter (fun log => String.eqb (log_strategy log) strategy)
        similar_queries in
    match strategy_logs with
    | [] => performance_of similar_queries rest
    | _ :: _ =>
      (performance <- strategy_performance strategy_logs ;;
       others <- performance_of similar_queries rest ;;
       Returned ((strategy, performance) :: others))%outcome
    end
  end.

Definition _analyze_historical_performance (search_logs : list SearchLog)
    (query : pystr) : scores :=
  let scores := [("semantic", 0.0); ("fulltext", 0.0); ("hybrid", 0.0)] in
  match _find_similar_queries search_logs query 5 with
  | [] => scores
  | similar_queries =>
    match performance_of similar_queries ["semantic"; "fulltext"; "hybrid"] with
    | Returned strategy_performance =>
      fold_left (fun scores sp => set scores (fst sp) (snd sp))
        strategy_performance scores
    | Raised _ => scores
    end
  end.

(** The three final scores, in the order of the dictionary literal. *)
Definition final_scores (feature_score history_score : scores) : scores :=
  [("semantic", get feature_score "semantic" 0 * 0.7
                + get history_score "semantic" 0 * 0.3);
   ("fulltext", get feature_score "fulltext" 0 * 0.7
                + get history_score "fulltext" 0 * 0.3);
   ("hybrid", get feature_score "hybrid" 0 * 0.7
              + get history_score "hybrid" 0 * 0.3)].

Definition _select_strategy_by_scores (feature_score history_score : scores)
  : string :=
  let final_scores := final_scores feature_score history_score in
  let best_strategy :=
    match max_by snd final_scores with
    | Some item => fst item
    | None => ""
    end in
  let max_score := get final_scores best_strategy 0 in
  if negb (String.eqb best_strategy "hybrid") then
    let hybrid_score := get final_scores "hybrid" 0 in
    if max_score - hybrid_score <? 0.1 then "hybrid" else best_strategy
  else best_strategy.

Definition _determine_best_strategy (search_logs : list SearchLog)
    (query : pystr) : string :=
  let feature_score := _analyze_query_features query in
  let history_score := _analyze_historical_performance search_logs query in
  _select_strategy_by_scores feature_score history_score.

End Strategy.
Import Strategy.

(** ** Data model ([models/search.py]) *)

Definition datetime := Z.
Definition json := list (pystr * pystr).

Record SearchResult : Type := {
  id : pystr;
  title : pystr;
  content : pystr;
  source : pystr;
  document_id : pystr;
  score : float;
  timestamp : datetime;
  cluster : option pystr;
  metadata : option json
}.

Record ClusterInfo : Type := {
  name : pystr;
  count : Z
}.

(** [result.score = s] and [result.cluster = c]. *)
Definition with_score (r : SearchResult) (s : float) : SearchResult :=
  {| id := id r; title := title r; content := content r; source := source r;
     document_id := document_id r; score := s; timestamp := timestamp r;
     cluster := cluster r; metadata := metadata r |}.

Definition with_cluster (r : SearchResult) (c : pystr) : SearchResult :=
  {| id := id r; title := title r; content := content r; source := source r;
     document_id := document_id r; score := score r; timestamp := timestamp r;
     cluster := Some c; metadata := metadata r |}.

(** ** Collaborators

    [Services] holds what the search service reaches through its
    attributes [vector_service], [fulltext_service], [reranking_service] and
    [analytics_service], and through the clustering library, while it
    serves one request.  [encode_text] draws a random vector and every
    result gets a [uuid.uuid4()] of its own, so a field gives the answer of
    the call made in that request, and nothing relates the answers of two
    requests. *)

(** A hit as Milvus returns it, with the fields the search service reads.
    [hit_created_at] is the parsed [created_at]; [hit_uuid] is the value
    [uuid.uuid4()] yields when the hit is wrapped into a [SearchResult] in
    this call; another call draws another one. *)
Record Hit : Type := {
  hit_knowledge_base_id : pystr;
  hit_document_id : pystr;
  hit_title : pystr;
  hit_content : pystr;
  hit_metadata : json;
  hit_score : float;
  hit_created_at : datetime;
  hit_uuid : pystr
}.

Record Services : Type := {
  (** [analytics_service.search_logs]. *)
  search_logs : list SearchLog;
  (** [encode_text], with the vector it draws in this call, then
      [collection.search] on the vector field. *)
  vector_hits : pystr -> list pystr -> Z -> outcome (list Hit);
  (** [collection.search] with BM25 on the content field. *)
  fulltext_hits : pystr -> list pystr -> Z -> outcome (list Hit);
  (** [reranking_service.rerank]. *)
  reranking_service : pystr -> list pystr -> outcome (list float);
  (** [encode_batch] then [DBSCAN(...).fit(vectors).labels_]. *)
  dbscan_labels : list pystr -> outcome (list Z)
}.

(** The dictionary [VectorService.search] and [FulltextService.search] build
    for a hit. *)
Record Item : Type := {
  item_title : pystr;
  item_content : pystr;
  item_knowledge_base_name : pystr;
  item_document_id : pystr;
  item_score : float;
  item_created_at : datetime;
  item_metadata : json;
  item_uuid : pystr
}.

Definition knowledge_base_name (knowledge_base_id : pystr) : pystr :=
  lit "知识库" ++ slice_last 4 knowledge_base_id.

Definition item_of_hit (hit : Hit) : Item :=
  {| item_title := hit_title hit;
     item_content := hit_content hit;
     item_knowledge_base_name :=
       knowledge_base_name (hit_knowledge_base_id hit);
     item_document_id := hit_document_id hit;
     item_score := hit_score hit;
     item_created_at := hit_created_at hit;
     item_metadata := hit_metadata hit;
     item_uuid := hit_uuid hit |}.

(** The loop over hits shared by both services: hits below [min_score] are
    skipped. *)
Definition collect_hits (hits : list Hit) (min_score : float) : list Item :=
  map item_of_hit
    (List.filter (fun hit => negb (hit_score hit <? min_score)%float) hits).

Module VectorService.

Definition search (svc : Services) (query : pystr)
    (knowledge_base_ids : list pystr) (limit : Z) (min_score : float)
  : outcome (list Item) :=
  (hits <- vector_hits svc query knowledge_base_ids limit ;;
   Returned (collect_hits hits min_score))%outcome.

End VectorService.

Module FulltextService.

Definition search (svc : Services) (query : pystr)
    (knowledge_base_ids : list pystr) (limit : Z) (min_score : float)
  : outcome (list Item) :=
  (hits <- fulltext_hits svc query knowledge_base_ids limit ;;
   Returned (collect_hits hits min_score))%outcome.

End FulltextService.

(** ** Reranking adapter ([reranking_service.py]) *)

Module RerankingService.

Local Open Scope float_scope.

Definition clamp (score : float) : float :=
  PyFloat.max2 0.0 (PyFloat.min2 1.0 score).

(** [self.model]: [None] when loading failed, else the cosine similarities
    of the query with each text, or the error of the model call. *)
Definition bge_model := pystr -> list pystr -> outcome (list float).

Definition rerank (model : option bge_model) (query : pystr)
    (texts : list pystr) : outcome (list float) :=
  try_except
    match model with
    | None => Returned (repeat 1.0 (length texts))
    | Some compute_similarity =>
      (similarities <- compute_similarity query texts ;;
       Returned (map clamp similarities))%outcome
    end
    (fun _ => Returned (repeat 1.0 (length texts))).

(** [asyncio.gather] over the tasks: the results in the order of the tasks,
    or an error if a task raised. *)
Fixpoint gather {A : Type} (tasks : list (outcome A)) : outcome (list A) :=
  match tasks with
  | [] => Returned []
  | task :: rest =>
    (x <- task ;; xs <- gather rest ;; Returned (x :: xs))%outcome
  end.

Definition batch_rerank (model : option bge_model) (queries : list pystr)
    (texts_list : list (list pystr)) : outcome (list (list float)) :=
  try_except
    (let tasks :=
       map (fun qt => rerank model (fst qt) (snd qt))
         (combine queries texts_list) in
     gather tasks)
    (fun _ =>
       Returned (map (fun texts => repeat 1.0 (length texts)) texts_list)).

End RerankingService.

(** ** Search service ([search_service.py]) *)

Module SearchService.

(** [__init__]: the reranking service is the repository's own, around the
    model it managed to load. *)
Definition init (logs : list SearchLog)
    (vector fulltext : pystr -> list pystr -> Z -> outcome (list Hit))
    (model : option RerankingService.bge_model)
    (labels : list pystr -> outcome (list Z)) : Services :=
  {| search_logs := logs;
     vector_hits := vector;
     fulltext_hits := fulltext;
     reranking_service := RerankingService.rerank model;
     dbscan_labels := labels |}.

Local Open Scope string_scope.
Local Open Scope float_scope.

(** The attributes [search] writes on the service object. *)
Record State : Type := {
  strategy_used : string;
  clusters : list ClusterInfo
}.

(** The [SearchResult] built from an item, shared by [_semantic_search] and
    [_fulltext_search]. *)
Definition result_of_item (item : Item) : SearchResult :=
  {| id := item_uuid item;
     title := item_title item;
     content := item_content item;
     source := item_knowledge_base_name item;
     document_id := item_document_id item;
     score := item_score item;
     timestamp := item_created_at item;
     cluster := None;
     metadata := Some (item_metadata item) |}.

Definition _semantic_search (svc : Services) (query : pystr)
    (knowledge_base_ids : list pystr) (max_results : Z) (min_score : float)
  : outcome (list SearchResult) :=
  try_except
    (vector_results <-
       VectorService.search svc query knowledge_base_ids max_results min_score ;;
     Returned (map result_of_item vector_results))%outcome
    (fun e => Raised e).

Definition _fulltext_search (svc : Services) (query : pystr)
    (knowledge_base_ids : list pystr) (max_results : Z) (min_score : float)
  : outcome (list SearchResult) :=
  try_except
    (fulltext_results <-
       FulltextService.search svc query knowledge_base_ids max_results min_score ;;
     Returned (map result_of_item fulltext_results))%outcome
    (fun e => Raised e).

(** *** Fusion *)

(** A value of [result_map]. *)
Record Candidate : Type := {
  result : SearchResult;
  semantic_score : float;
  fulltext_score : float
}.

Definition result_map := dict pystr Candidate.

(** [f"{result.document_id}:{result.content[:50]}"]. *)
Definition result_key (r : SearchResult) : pystr :=
  (document_id r ++ lit ":" ++ slice_to (content r) 50)%list.

Definition add_semantic (m : result_map) (r : SearchResult) : result_map :=
  assign str_eqb m (result_key r)
    {| result := r; semantic_score := score r; fulltext_score := 0.0 |}.

Definition add_fulltext (m : result_map) (r : SearchResult) : result_map :=
  match lookup str_eqb m (result_key r) with
  | Some data =>
    assign str_eqb m (result_key r)
      {| result := result data; semantic_score := semantic_score data;
         fulltext_score := score r |}
  | None =>
    assign str_eqb m (result_key r)
      {| result := r; semantic_score := 0.0; fulltext_score := score r |}
  end.

Definition merge (semantic_results fulltext_results : list SearchResult)
  : result_map :=
  fold_left add_fulltext fulltext_results
    (fold_left add_semantic semantic_results []).

Definition combined_score (semantic_weight fulltext_weight : float)
    (data : Candidate) : float :=
  semantic_score data * semantic_weight + fulltext_score data * fulltext_weight.

(** The loop over [result_map.items()]: the score is overwritten, and the
    result kept when it reaches [min_score]. *)
Definition combine (m : result_map) (semantic_weight fulltext_weight : float)
    (min_score : float) : list SearchResult :=
  flat_map
    (fun kd =>
       let data := snd kd in
       let combined_score := combined_score semantic_weight fulltext_weight data in
       let result := with_score (result data) combined_score in
       if min_score <=? combined_score then [result] else [])
    m.

(** Lines 449 to 493 of [_legacy_hybrid_search]: merge, rescore, filter and
    sort the two lists. *)
Definition fuse (semantic_results fulltext_results : list SearchResult)
    (semantic_weight fulltext_weight min_score : float) : list SearchResult :=
  sort_desc score
    (combine (merge semantic_results fulltext_results)
       semantic_weight fulltext_weight min_score).

Definition _legacy_hybrid_search (svc : Services) (query : pystr)
    (knowledge_base_ids : list pystr) (semantic_weight fulltext_weight : float)
    (max_results : Z) (min_score : float) : outcome (list SearchResult) :=
  try_except
    (semantic_results <-
       _semantic_search svc query knowledge_base_ids max_results
         (min_score * 0.8) ;;
     fulltext_results <-
       _fulltext_search svc query knowledge_base_ids max_results
         (min_score * 0.8) ;;
     Returned
       (fuse semantic_results fulltext_results
          semantic_weight fulltext_weight min_score))%outcome
    (fun e => Raised e).

Definition _can_use_native_hybrid_search : bool := true.

(** The body of the native search encodes the query and then evaluates
    [Collection(settings.MILVUS_COLLECTION)].  [search_service.py] imports
    no [Collection], so the body raises on every call: the error of
    [encode_text] if it failed, a [NameError] otherwise.  The handler does
    not look at the error: it runs the legacy search, and a failure of that
    one is raised from inside the handler.  The rest of the body is never
    run. *)
Definition _native_hybrid_search (svc : Services) (query : pystr)
    (knowledge_base_ids : list pystr) (semantic_weight fulltext_weight : float)
    (max_results : Z) (min_score : float) : outcome (list SearchResult) :=
  try_except
    (Raised (NameError "Collection"))
    (fun _ =>
       _legacy_hybrid_search svc query knowledge_base_ids
         semantic_weight fulltext_weight max_results min_score).

Definition _hybrid_search (svc : Services) (query : pystr)
    (knowledge_base_ids : list pystr) (semantic_weight fulltext_weight : float)
    (max_results : Z) (min_score : float) : outcome (list SearchResult) :=
  try_except
    (if _can_use_native_hybrid_search
     then _native_hybrid_search svc query knowledge_base_ids
            semantic_weight fulltext_weight max_results min_score
     else _legacy_hybrid_search svc query knowledge_base_ids
            semantic_weight fulltext_weight max_results min_score)
    (fun e => Raised e).

(** *** Reranking *)

(** [for i, result in enumerate(results): result.score = reranked_scores[i]].
    The results are shared objects: when the scores run out the loop stops
    on an [IndexError] and the scores written so far stay written.  The
    boolean tells whether the loop completed. *)
Fixpoint assign_scores (results : list SearchResult) (reranked_scores : list float)
  : list SearchResult * bool :=
  match results with
  | [] => ([], true)
  | r :: results' =>
    match reranked_scores with
    | [] => (results, false)
    | s :: scores' =>
      let (rest, completed) := assign_scores results' scores' in
      (with_score r s :: rest, completed)
    end
  end.

Definition _rerank_results (svc : Services) (query : pystr)
    (results : list SearchResult) : outcome (list SearchResult) :=
  let texts := map content results in
  match reranking_service svc query texts with
  | Raised _ => Returned results
  | Returned reranked_scores =>
    match assign_scores results reranked_scores with
    | (results, true) => Returned (sort_desc score results)
    | (results, false) => Returned results
    end
  end.

(** *** Clustering *)

Definition cluster_map := dict Z (list SearchResult).

Definition add_to_cluster (m : cluster_map) (cluster_id : Z) (r : SearchResult)
  : cluster_map :=
  match lookup Z.eqb m cluster_id with
  | None => assign Z.eqb m cluster_id [r]
  | Some members => assign Z.eqb m cluster_id (members ++ [r])%list
  end.

(** The loop reading [labels[i]] for every result; it raises when the labels
    run out. *)
Fixpoint build_cluster_map (results : list SearchResult) (labels : list Z)
    (m : cluster_map) : outcome cluster_map :=
  match results with
  | [] => Returned m
  | r :: results' =>
    match labels with
    | [] => Raised IndexError
    | cluster_id :: labels' =>
      build_cluster_map results' labels' (add_to_cluster m cluster_id r)
    end
  end.

Definition cluster_name (cluster_id : Z) (cluster_results : list SearchResult)
  : pystr :=
  match max_by score cluster_results with
  | Some top_result =>
    match title top_result with
    | [] => (lit "聚类 " ++ str_of_Z (cluster_id + 1))%list
    | _ :: _ => title top_result
    end
  | None => []
  end.

(** The loop over [cluster_map.items()]: every member gets the name of its
    cluster (the members are shared with the lists of the map). *)
Definition name_clusters (m : cluster_map) : cluster_map :=
  map (fun kv =>
         (fst kv, map (fun r => with_cluster r (cluster_name (fst kv) (snd kv)))
                      (snd kv)))
      m.

Definition cluster_infos (m : cluster_map) : list ClusterInfo :=
  map (fun kv =>
         {| name := cluster_name (fst kv) (snd kv); count := len (snd kv) |})
      m.

(** [sorted] on integers. *)
Fixpoint insert_asc (x : Z) (l : list Z) : list Z :=
  match l with
  | [] => [x]
  | y :: l' => if (y <? x)%Z then y :: insert_asc x l' else x :: l
  end.

Definition sorted_asc (l : list Z) : list Z := fold_right insert_asc [] l.

Definition members_of (m : cluster_map) (cluster_id : Z) : list SearchResult :=
  match lookup Z.eqb m cluster_id with
  | Some members => members
  | None => []
  end.

Definition reorganize (m : cluster_map) : list SearchResult :=
  flat_map (fun cluster_id => sort_desc score (members_of m cluster_id))
    (sorted_asc (keys m)).

Definition _cluster_results (svc : Services) (results : list SearchResult)
  : outcome (list SearchResult * list ClusterInfo) :=
  try_except
    (if (len results <=? 1)%Z then Returned (results, [])
     else
       let texts := map content results in
       (labels <- dbscan_labels svc texts ;;
        cluster_map <- build_cluster_map results labels [] ;;
        Returned (reorganize (name_clusters cluster_map),
                  cluster_infos cluster_map))%outcome)
    (fun _ => Returned (results, [])).

(** *** Orchestration *)

(** The retrieval call chosen by the strategy (lines 52 to 60). *)
Definition retrieve (svc : Services) (query : pystr)
    (knowledge_base_ids : list pystr) (strategy : string)
    (semantic_weight fulltext_weight : float) (max_results : Z)
    (min_score : float) : outcome (list SearchResult) :=
  if String.eqb strategy "semantic" then
    _semantic_search svc query knowledge_base_ids (max_results * 2) min_score
  else if String.eqb strategy "fulltext" then
    _fulltext_search svc query knowledge_base_ids (max_results * 2) min_score
  else if String.eqb strategy "hybrid" then
    _hybrid_search svc query knowledge_base_ids semantic_weight fulltext_weight
      (max_results * 2) min_score
  else Raised (ValueError (lit "不支持的检索策略: " ++ lit strategy)%list).

Definition resolve_strategy (svc : Services) (query : pystr) (strategy : string)
  : string :=
  if String.eqb strategy "auto"
  then _determine_best_strategy (search_logs svc) query
  else strategy.

Definition rerank_stage (svc : Services) (query : pystr) (use_reranking : bool)
    (results : list SearchResult) : outcome (list SearchResult) :=
  if use_reranking && (1 <? len results)%Z
  then _rerank_results svc query results
  else Returned results.

Definition cluster_stage (svc : Services) (use_clustering : bool)
    (clusters : list ClusterInfo) (results : list SearchResult)
  : outcome (list SearchResult * list ClusterInfo) :=
  if use_clustering && (1 <? len results)%Z
  then _cluster_results svc results
  else Returned (results, clusters).

(** [search] returns the result list or raises; either way the attributes of
    the service are as the second component says.  The entry appended to the
    analytics log after the list is final does not touch the list. *)
Definition search (svc : Services) (self : State) (query : pystr)
    (knowledge_base_ids : list pystr) (strategy : string)
    (semantic_weight fulltext_weight : float) (max_results : Z)
    (min_score : float) (use_reranking use_clustering : bool)
  : outcome (list SearchResult) * State :=
  let strategy := resolve_strategy svc query strategy in
  let self := {| strategy_used := strategy; clusters := clusters self |} in
  match retrieve svc query knowledge_base_ids strategy
          semantic_weight fulltext_weight max_results min_score with
  | Raised e => (Raised e, self)
  | Returned results =>
    match rerank_stage svc query use_reranking results with
    | Raised e => (Raised e, self)
    | Returned results =>
      match cluster_stage svc use_clustering (clusters self) results with
      | Raised e => (Raised e, self)
      | Returned (results, clusters) =>
        (Returned (slice_to results max_results),
         {| strategy_used := strategy; clusters := clusters |})
      end
    end
  end.

End SearchService.

(** ** Cache service ([cache_service.py]) *)

Module CacheService.

(** The cache as the endpoint sees it: the Redis client, if one was
    created, answering a key with the unpickled value, with nothing (no
    entry, or an entry that does not unpickle), or with an error; and
    [settings.REDIS_CACHE_EXPIRE]. *)
Record t (A : Type) : Type := {
  redis : option (pystr -> outcome (option A));
  REDIS_CACHE_EXPIRE : Z
}.

Definition get {A : Type} (self : t A) (key : pystr) : option A :=
  match redis self with
  | None => None
  | Some redis_get =>
    if (REDIS_CACHE_EXPIRE self =? 0)%Z then None
    else
      match redis_get key with
      | Returned cached_data => cached_data
      | Raised _ => None
      end
  end.

End CacheService.

(** ** Search endpoint ([api/search.py]) *)

Module Api.

Local Open Scope string_scope.

Record SearchRequest : Type := {
  query : pystr;
  knowledge_base_ids : list pystr;
  strategy : string;
  semantic_weight : float;
  fulltext_weight : float;
  max_results : Z;
  min_score : float;
  use_reranking : bool;
  use_clustering : bool
}.

Record SearchResponse : Type := {
  response_query : pystr;
  results : list SearchResult;
  strategy_used : string;
  total_found : Z;
  clusters : list ClusterInfo;
  response_time : float
}.

(** What the endpoint gives back: a response, or an [HTTPException]. *)
Inductive http (A : Type) : Type :=
| Ok (a : A)
| HTTPException (status_code : Z) (detail : pystr).
Arguments Ok {A} a.
Arguments HTTPException {A} status_code detail.

(** [s.strip()]. *)
Fixpoint lstrip (s : pystr) : pystr :=
  match s with
  | [] => []
  | c :: s' => if is_space c then lstrip s' else s
  end.

Definition strip (s : pystr) : pystr := rev (lstrip (rev (lstrip s))).

(** [sep.join(l)]. *)
Fixpoint join (sep : pystr) (l : list pystr) : pystr :=
  match l with
  | [] => []
  | [x] => x
  | x :: l' => (x ++ sep ++ join sep l')%list
  end.

(** [str(e)]. *)
Definition str_of_exn (e : exn) : pystr :=
  match e with
  | ValueError msg => msg
  | IndexError => lit "list index out of range"
  | ZeroDivisionError => lit "float division by zero"
  | NameError name => lit ("name '" ++ name ++ "' is not defined")
  | ServiceError detail => lit detail
  end.

Definition cache_key (query : pystr) (request : SearchRequest) : pystr :=
  (lit "search:" ++ query ++ lit ":" ++ lit (strategy request) ++ lit ":"
   ++ join (lit ",") (knowledge_base_ids request))%list.

(** What the endpoint reaches: the collaborators of the search service that
    [get_search_service] builds for the request, and the cache. *)
Record Backend : Type := {
  vector : pystr -> list pystr -> Z -> outcome (list Hit);
  fulltext : pystr -> list pystr -> Z -> outcome (list Hit);
  model : option RerankingService.bge_model;
  labels : list pystr -> outcome (list Z);
  cache : CacheService.t SearchResponse
}.

(** [get_search_service]: a new [SearchService()] for each request, whose
    analytics service starts with no search log. *)
Definition get_search_service (backend : Backend) : Services :=
  SearchService.init [] (vector backend) (fulltext backend)
    (model backend) (labels backend).

Definition new_service : SearchService.State :=
  {| SearchService.strategy_used := "auto"; SearchService.clusters := [] |}.

(** The endpoint [search]; [elapsed] is what the clock gives for the
    response time.  Writing the response to the cache and recording the
    metrics cannot raise and do not touch the response. *)
Definition search (backend : Backend) (request : SearchRequest)
    (elapsed : float) : http SearchResponse :=
  let query := strip (query request) in
  match query with
  | [] => HTTPException 400 (lit "查询内容不能为空")
  | _ :: _ =>
    let cached_result :=
      if (0 <? CacheService.REDIS_CACHE_EXPIRE (cache backend))%Z
      then CacheService.get (cache backend) (cache_key query request)
      else None in
    match cached_result with
    | Some cached_result => Ok cached_result
    | None =>
      match SearchService.search (get_search_service backend) new_service
              query (knowledge_base_ids request) (strategy request)
              (semantic_weight request) (fulltext_weight request)
              (max_results request) (min_score request)
              (use_reranking request) (use_clustering request) with
      | (Returned results, search_service) =>
        Ok {| response_query := query;
              results := results;
              strategy_used := SearchService.strategy_used search_service;
              total_found := len results;
              clusters := if use_clustering request
                          then SearchService.clusters search_service else [];
              response_time := elapsed |}
      | (Raised e, _) =>
        HTTPException 500 (lit "检索失败: " ++ str_of_exn e)%list
      end
    end
  end.

End Api.

(** ** Vocabulary of the statements *)

(** A float is a number when it is not NaN, that is when it compares equal
    to itself. *)
Definition is_number (x : float) : bool := (x <=? x)%float.

Section Ordered.

Variable A : Type.
Variable key : A -> float.

Definition numbered (l : list A) : Prop :=
  Forall (fun x => is_number (key x) = true) l.

(** [descending l]: every element's key is at least the key of every later
    one. *)
Definition descending (l : list A) : Prop :=
  StronglySorted (fun a b => (key b <=? key a)%float = true) l.

End Ordered.

(** The strategy names, in the order of the dictionary of final scores. *)
Definition strategy_names : list string :=
  ["semantic"; "fulltext"; "hybrid"]%string.

Definition final_score (feature_score history_score : scores) (s : string)
  : float :=
  (get feature_score s 0 * 0.7 + get history_score s 0 * 0.3)%float.

(** The results of a list that carry the candidate key [k], and the last of
    them. *)
Definition with_key (k : pystr) (l : list SearchResult) : list SearchResult :=
  List.filter (fun r => str_eqb (SearchService.result_key r) k) l.

Definition last_with_key (k : pystr) (l : list SearchResult)
  : option SearchResult :=
  find (fun r => str_eqb (SearchService.result_key r) k) (rev l).

(** The invariant of [result_map]: keys are distinct and every candidate
    sits under the key of its result. *)
Definition well_keyed (m : SearchService.result_map) : Prop :=
  NoDup (keys m) /\
  forall k c, In (k, c) m ->
    SearchService.result_key (SearchService.result c) = k.

(** A result with a given document, content, title and score, for the
    worked examples. *)
Definition sample_result (doc text heading : string) (s : float) : SearchResult :=
  {| id := lit "r"; title := lit heading; content := lit text;
     source := lit "kb"; document_id := lit doc; score := s;
     timestamp := 0%Z; cluster := None; metadata := None |}.

Definition sample_hit (doc text heading : string) (s : float) : Hit :=
  {| hit_knowledge_base_id := lit "kb-0001"; hit_document_id := lit doc;
     hit_title := lit heading; hit_content := lit text; hit_metadata := [];
     hit_score := s; hit_created_at := 0%Z; hit_uuid := lit "r" |}.

(** A service whose collaborators answer the same way whatever they are
    asked, with an empty query log. *)
Definition sample_services (vector fulltext : outcome (list Hit))
    (model : option RerankingService.bge_model) (labels : outcome (list Z))
  : Services :=
  SearchService.init []
    (fun _ _ _ => vector) (fun _ _ _ => fulltext)
    model (fun _ => labels).

(** The number of results held by a cluster map. *)
Definition population (m : SearchService.cluster_map) : nat :=
  length (concat (map snd m)).

Definition sample_state : SearchService.State :=
  {| SearchService.strategy_used := "auto"%string;
     SearchService.clusters := [] |}.

(** The results labelled [cluster_id], in input order. *)
Definition cluster_members (cluster_id : Z) (results : list SearchResult)
    (labels : list Z) : list SearchResult :=
  map fst
    (List.filter (fun p => (snd p =? cluster_id)%Z) (combine results labels)).

(** [label] is the representative name of a cluster: the title of a member
    of highest score, or the synthesized label when that title is empty. *)
Definition representative_name (cluster_id : Z) (members : list SearchResult)
    (label : pystr) : Prop :=
  exists top,
    In top members /\
    (forall r, In r members -> (score r <=? score top)%float = true) /\
    label = match title top with
            | [] => lit "聚类 " ++ str_of_Z (cluster_id + 1)
            | _ :: _ => title top
            end.

(** The bounds checked on a dictionary of feature scores. *)
Definition scores_in_range (d : scores) : bool :=
  ((0 <=? get d "semantic" 0) && (get d "semantic" 0 <=? 2)
   && (0 <=? get d "fulltext" 0) && (get d "fulltext" 0 <=? 2)
   && (0 <=? get d "hybrid" 0) && (get d "hybrid" 0 <=? 2)
   && (0.5 <=? get d "hybrid" 0))%float%string.

(** The first result of a list that carries the candidate key [k]. *)
Definition first_with_key (k : pystr) (l : list SearchResult)
  : option SearchResult :=
  find (fun r => str_eqb (SearchService.result_key r) k) l.

(** Every candidate of the map holds a result of the pool. *)
Definition sourced (pool : list SearchResult) (m : SearchService.result_map)
  : Prop :=
  forall k c, In (k, c) m -> In (SearchService.result c) pool.

(** A result without its cluster label. *)
Definition drop_cluster (r : SearchResult) : SearchResult :=
  {| id := id r; title := title r; content := content r; source := source r;
     document_id := document_id r; score := score r; timestamp := timestamp r;
     cluster := None; metadata := metadata r |}.

(** The results paired with the scores, each carrying its new score. *)
Definition rescored (results : list SearchResult) (scores : list float)
  : list SearchResult :=
  map (fun rs => with_score (fst rs) (snd rs)) (combine results scores).

(** The distinct labels of a list, in the order of their first
    occurrence. *)
Definition first_seen (labels : list Z) : list Z :=
  fold_left
    (fun seen c => if existsb (Z.eqb c) seen then seen else seen ++ [c])
    labels [].

(** A score lies in [0, 1]. *)
Definition in_unit_interval (s : float) : Prop :=
  (0 <=? s)%float = true /\ (s <=? 1)%float = true.

(** The results a retrieval builds from an answer of Milvus: one for each
    hit whose score is not below the threshold, in the order of the hits. *)
Definition results_of_hits (hits : list Hit) (min_score : float)
  : list SearchResult :=
  map SearchService.result_of_item (collect_hits hits min_score).

(** [retrieved] is everything the chosen retrieval keeps of what Milvus
    answers when asked for [max_results * 2] hits: every hit not below
    [min_score] for the semantic and the fulltext strategy, the whole fused
    list for the hybrid one. *)
Definition retrieved_in_full (svc : Services) (query : pystr)
    (knowledge_base_ids : list pystr) (strategy : string)
    (semantic_weight fulltext_weight : float) (max_results : Z)
    (min_score : float) (retrieved : list SearchResult) : Prop :=
  (strategy = "semantic"%string /\
   exists hits,
     vector_hits svc query knowledge_base_ids (max_results * 2) = Returned hits /\
     retrieved = results_of_hits hits min_score)
  \/
  (strategy = "fulltext"%string /\
   exists hits,
     fulltext_hits svc query knowledge_base_ids (max_results * 2)
     = Returned hits /\
     retrieved = results_of_hits hits min_score)
  \/
  (strategy = "hybrid"%string /\
   exists vector fulltext,
     vector_hits svc query knowledge_base_ids (max_results * 2)
     = Returned vector /\
     fulltext_hits svc query knowledge_base_ids (max_results * 2)
     = Returned fulltext /\
     retrieved
     = SearchService.fuse
         (results_of_hits vector (min_score * 0.8)%float)
         (results_of_hits fulltext (min_score * 0.8)%float)
         semantic_weight fulltext_weight min_score).

(** * Properties *)

Import SearchService.

Unset Implicit Arguments.

(** ** The order of floats *)

Ltac sf_cases :=
  repeat match goal with
         | s : spec_float |- _ => destruct s
         | b : bool |- _ => destruct b
         end;
  simpl in *; try congruence; try reflexivity.

Ltac cmp_cases :=
  repeat match goal with
         | H : context [Z.compare ?a ?b] |- _ => destruct (Z.compare_spec a b)
         | |- context [Z.compare ?a ?b] => destruct (Z.compare_spec a b)
         | H : context [Pos.compare ?a ?b] |- _ => destruct (Pos.compare_spec a b)
         | |- context [Pos.compare ?a ?b] => destruct (Pos.compare_spec a b)
         end;
  simpl in *; try congruence; try lia.

Ltac to_spec :=
  unfold is_number in *;
  repeat rewrite ltb_spec in *; repeat rewrite leb_spec in *;
  repeat match goal with
         | x : float |- _ => generalize dependent (Prim2SF x); clear x
         end;
  intros; unfold SFleb, SFltb, SFcompare in *.

Section FloatOrder.

Local Open Scope float_scope.

Lemma leb_trans (x y z : float) :
  (x <=? y) = true -> (y <=? z) = true -> (x <=? z) = true.
Proof. to_spec. sf_cases; fold Pos.compare in *; cmp_cases. Qed.

Lemma leb_total (x y : float) :
  is_number x = true -> is_number y = true ->
  (x <? y) = false -> (y <=? x) = true.
Proof. to_spec. sf_cases; fold Pos.compare in *; cmp_cases. Qed.

Lemma ltb_leb (x y : float) : (x <? y) = true -> (x <=? y) = true.
Proof. to_spec. sf_cases; fold Pos.compare in *; cmp_cases. Qed.

Lemma leb_number_l (x y : float) : (x <=? y) = true -> is_number x = true.
Proof. to_spec. sf_cases; fold Pos.compare in *; cmp_cases. Qed.

Lemma leb_number_r (x y : float) : (x <=? y) = true -> is_number y = true.
Proof. to_spec. sf_cases; fold Pos.compare in *; cmp_cases. Qed.

Lemma ltb_number_r (x y : float) : (x <? y) = true -> is_number y = true.
Proof. to_spec. sf_cases; fold Pos.compare in *; cmp_cases. Qed.

Lemma ltb_leb_trans (x y z : float) :
  (x <? y) = true -> (y <=? z) = true -> (x <? z) = true.
Proof. to_spec. sf_cases; fold Pos.compare in *; cmp_cases. Qed.

Lemma leb_ltb_trans (x y z : float) :
  (x <=? y) = true -> (y <? z) = true -> (x <? z) = true.
Proof. to_spec. sf_cases; fold Pos.compare in *; cmp_cases. Qed.

Lemma ltb_trans (x y z : float) :
  (x <? y) = true -> (y <? z) = true -> (x <? z) = true.
Proof. to_spec. sf_cases; fold Pos.compare in *; cmp_cases. Qed.

End FloatOrder.

Create HintDb float_order.
#[export] Hint Resolve ltb_leb leb_total leb_trans ltb_leb_trans
  leb_ltb_trans ltb_trans : float_order.

(** ** Sorting and maximum *)

Section KeyedOrderFacts.

Variable A : Type.
Variable key : A -> float.

Local Open Scope float_scope.

Lemma insert_desc_perm (x : A) (l : list A) :
  Permutation (insert_desc key x l) (x :: l).
Proof.
  induction l as [|y l IH]; simpl.
  - apply Permutation_refl.
  - destruct (key x <? key y).
    + apply Permutation_trans with (y :: x :: l).
      * now apply perm_skip.
      * apply perm_swap.
    + apply Permutation_refl.
Qed.

Lemma sort_desc_perm (l : list A) : Permutation (sort_desc key l) l.
Proof.
  induction l as [|x l IH]; simpl.
  - apply perm_nil.
  - apply Permutation_trans with (x :: sort_desc key l).
    + apply insert_desc_perm.
    + now apply perm_skip.
Qed.

Lemma sort_desc_length (l : list A) : length (sort_desc key l) = length l.
Proof. apply Permutation_length, sort_desc_perm. Qed.

Lemma sort_desc_In (l : list A) (x : A) : In x (sort_desc key l) <-> In x l.
Proof.
  split; apply Permutation_in;
    [apply sort_desc_perm | apply Permutation_sym, sort_desc_perm].
Qed.

Lemma insert_desc_descending (x : A) (l : list A) :
  is_number (key x) = true -> numbered key l ->
  descending key l -> descending key (insert_desc key x l).
Proof.
  intros Hx Hl Hs. induction Hs as [|y l Hs IH Hy]; simpl.
  - constructor; [constructor | constructor].
  - inversion Hl as [|? ? Hny Hnl]; subst.
    destruct (key x <? key y) eqn:E.
    + constructor; [now apply IH |].
      apply Forall_forall. intros z Hz.
      apply (Permutation_in _ (insert_desc_perm x l)) in Hz.
      destruct Hz as [<- | Hz].
      * now apply ltb_leb.
      * rewrite Forall_forall in Hy. now apply Hy.
    + assert (Hyx : (key y <=? key x) = true) by now apply leb_total.
      constructor; [now constructor |].
      constructor; [exact Hyx |].
      apply Forall_forall. intros z Hz.
      rewrite Forall_forall in Hy.
      apply leb_trans with (key y); [now apply Hy | exact Hyx].
Qed.

Lemma sort_desc_descending (l : list A) :
  numbered key l -> descending key (sort_desc key l).
Proof.
  induction 1 as [|x l Hx Hl IH].
  - constructor.
  - change (descending key (insert_desc key x (sort_desc key l))).
    apply insert_desc_descending; trivial.
    apply Forall_forall. intros y Hy. apply (proj1 (sort_desc_In _ _)) in Hy.
    unfold numbered in Hl. rewrite Forall_forall in Hl. now apply Hl.
Qed.

Lemma max_from_In (x : A) (l : list A) : In (max_from key x l) (x :: l).
Proof.
  revert x. induction l as [|y l IH]; intros x; simpl.
  - now left.
  - destruct (key x <? key y).
    + right. apply IH.
    + destruct (IH x) as [E | H]; [now left | now right; right].
Qed.

Lemma max_from_ge (x : A) (l : list A) :
  numbered key (x :: l) ->
  forall y, In y (x :: l) -> (key y <=? key (max_from key x l)) = true.
Proof.
  revert x. induction l as [|z l IH]; intros x Hn y Hy.
  - destruct Hy as [<- | []]. inversion Hn; subst. assumption.
  - inversion Hn as [|? ? Hx Hzl]; subst.
    inversion Hzl as [|? ? Hz Hl]; subst.
    simpl. destruct (key x <? key z) eqn:E.
    + destruct Hy as [<- | Hy].
      * apply leb_trans with (key z); [now apply ltb_leb |].
        apply IH; [assumption | now left].
      * now apply IH.
    + destruct Hy as [<- | [<- | Hy]].
      * apply IH; [now constructor | now left].
      * apply leb_trans with (key x); [now apply leb_total |].
        apply IH; [now constructor | now left].
      * apply IH; [now constructor | now right].
Qed.

(** Stability: a list in which no key is below another is left as it is. *)
Lemma sort_desc_tied (l : list A) :
  (forall x y, In x l -> In y l -> (key x <? key y) = false) ->
  sort_desc key l = l.
Proof.
  induction l as [|x l IH]; intros H; [reflexivity |].
  change (insert_desc key x (sort_desc key l) = x :: l).
  rewrite IH by (intros; apply H; now right).
  destruct l as [|y l]; [reflexivity |].
  simpl. rewrite H; [reflexivity | now left | now right; left].
Qed.

End KeyedOrderFacts.

(** ** Strategy selection *)

Section StrategyFacts.

Local Open Scope string_scope.
Local Open Scope float_scope.

Lemma split_from_length (cur s : pystr) :
  (length (split_from cur s)
   <= length s + match cur with [] => 0 | _ :: _ => 1 end)%nat.
Proof.
  revert cur. induction s as [|c s IH]; intros cur; simpl.
  - destruct cur; simpl; lia.
  - destruct (is_space c).
    + destruct cur; simpl; specialize (IH []); simpl in IH; lia.
    + specialize (IH (cur ++ [c])%list).
      destruct (cur ++ [c])%list eqn:E.
      * destruct cur; discriminate.
      * destruct cur; lia.
Qed.

Lemma py_split_length (s : pystr) : (len (py_split s) <= len s)%Z.
Proof.
  unfold len, py_split. pose proof (split_from_length [] s) as H.
  simpl in H. lia.
Qed.

Lemma no_history_no_signal (query : pystr) :
  _analyze_historical_performance [] query
  = [("semantic", 0.0); ("fulltext", 0.0); ("hybrid", 0.0)].
Proof. reflexivity. Qed.

(** The feature scores of a short query with no quote, punctuation or
    keyword: only the length rule fires. *)
Lemma short_plain_query_features (query : pystr) :
  (len query < 5)%Z ->
  any_in quote_chars query = false ->
  any_in special_chars query = false ->
  any_in definition_terms query = false ->
  any_in operation_terms query = false ->
  any_in comparison_terms query = false ->
  any_in open_terms query = false ->
  _analyze_query_features query
  = [("semantic", 0.0); ("fulltext", 0.0 + 0.4); ("hybrid", 0.5)].
Proof.
  intros Hlen Hq Hs Hd Ho Hc Hw.
  cbv beta zeta delta [_analyze_query_features].
  rewrite Hq, Hs, Hd, Ho, Hc, Hw.
  replace (len query <? 5)%Z with true by (symmetry; now apply Z.ltb_lt).
  replace (7 <? len (py_split query))%Z with false.
  - reflexivity.
  - symmetry. apply Z.ltb_ge. pose proof (py_split_length query). lia.
Qed.

(** C1, as the code has it: a query shorter than 5 characters with no quote
    character, none of the special punctuation characters and no
    definition, procedural, comparison or open-ended keyword is given, with
    an empty query log, the strategy "hybrid": its final scores are
    0.4*0.7 for fulltext against 0.5*0.7 for hybrid. *)
Theorem short_plain_query_selects_hybrid (query : pystr) :
  (len query < 5)%Z ->
  any_in quote_chars query = false ->
  any_in special_chars query = false ->
  any_in definition_terms query = false ->
  any_in operation_terms query = false ->
  any_in comparison_terms query = false ->
  any_in open_terms query = false ->
  _determine_best_strategy [] query = "hybrid".
Proof.
  intros Hlen Hq Hs Hd Ho Hc Hw. unfold _determine_best_strategy.
  rewrite short_plain_query_features by assumption.
  rewrite no_history_no_signal. vm_compute. reflexivity.
Qed.

Lemma short_plain_query_selects_hybrid_witness :
  _determine_best_strategy [] (lit "ab") = "hybrid".
Proof.
  apply (short_plain_query_selects_hybrid (lit "ab")); vm_compute; reflexivity.
Defined.

(** The same query with a quote in front is given "fulltext", and a
    seven-character query with a procedural keyword "hybrid". *)
Example quoted_short_query :
  _determine_best_strategy [] (lit "'ab") = "fulltext".
Proof. vm_compute. reflexivity. Qed.

Example procedural_query :
  _analyze_query_features (lit "如何配置知识库")
  = [("semantic", 0.0); ("fulltext", 0.0 + 0.3); ("hybrid", 0.5 + 0.2 + 0.1)]
  /\ _determine_best_strategy [] (lit "如何配置知识库") = "hybrid".
Proof. split; vm_compute; reflexivity. Qed.

(** C1 as stated fails: the two-character query "ab" meets every condition
    and is not given "fulltext". *)
Lemma short_plain_query_not_fulltext :
  let query := lit "ab" in
  (len query < 5)%Z /\
  any_in quote_chars query = false /\
  any_in special_chars query = false /\
  any_in definition_terms query = false /\
  any_in operation_terms query = false /\
  any_in comparison_terms query = false /\
  any_in open_terms query = false /\
  _determine_best_strategy [] query <> "fulltext".
Proof.
  cbv zeta. repeat split; try (vm_compute; reflexivity).
  vm_compute. discriminate.
Qed.

(** C3: the strategy returned is the one with the highest final score
    [feature * 0.7 + history * 0.3] (the first such in the order semantic,
    fulltext, hybrid), unless that strategy is not "hybrid" and its final
    score minus the hybrid final score is strictly below 0.1, when "hybrid"
    is returned.  Scores are numbers (no NaN). *)
Theorem select_strategy_by_scores_spec (feature_score history_score : scores) :
  let final := final_score feature_score history_score in
  (forall s, In s strategy_names -> is_number (final s) = true) ->
  exists best,
    In best strategy_names /\
    (forall s, In s strategy_names -> (final s <=? final best) = true) /\
    (best = "fulltext" -> (final "semantic" <? final "fulltext") = true) /\
    (best = "hybrid" ->
     (final "semantic" <? final "hybrid") = true /\
     (final "fulltext" <? final "hybrid") = true) /\
    _select_strategy_by_scores feature_score history_score
    = if negb (String.eqb best "hybrid")
         && (final best - final "hybrid" <? 0.1)
      then "hybrid" else best.
Proof.
  intros final Hn.
  assert (Hs : is_number (final "semantic") = true)
    by (apply Hn; simpl; auto).
  assert (Hf : is_number (final "fulltext") = true)
    by (apply Hn; simpl; auto).
  assert (Hh : is_number (final "hybrid") = true)
    by (apply Hn; simpl; auto).
  unfold _select_strategy_by_scores, final_scores.
  fold (final_score feature_score history_score "semantic").
  fold (final_score feature_score history_score "fulltext").
  fold (final_score feature_score history_score "hybrid").
  fold final. clearbody final. clear Hn.
  unfold max_by, max_from. simpl fold_left. simpl snd.
  destruct (final "semantic" <? final "fulltext") eqn:Esf;
    [destruct (final "fulltext" <? final "hybrid") eqn:Efh
    |destruct (final "semantic" <? final "hybrid") eqn:Esh];
    [exists "hybrid" | exists "fulltext" | exists "hybrid" | exists "semantic"];
    simpl; rewrite ?Esf; simpl; rewrite ?Efh, ?Esh; simpl;
    (split; [tauto |]);
    (split; [intros s [<- | [<- | [<- | []]]]; eauto 4 with float_order |]);
    (split; [intros; try discriminate; eauto 4 with float_order |]);
    (split; [intros; try discriminate; split; eauto 4 with float_order
            | reflexivity]).
Qed.

Lemma select_strategy_by_scores_spec_witness :
  exists best,
    In best strategy_names /\
    _select_strategy_by_scores
      [("semantic", 0.0); ("fulltext", 0.9); ("hybrid", 0.5)]
      [("semantic", 0.0); ("fulltext", 0.0); ("hybrid", 0.0)]
    = if negb (String.eqb best "hybrid")
         && (final_score
               [("semantic", 0.0); ("fulltext", 0.9); ("hybrid", 0.5)]
               [("semantic", 0.0); ("fulltext", 0.0); ("hybrid", 0.0)] best
             - final_score
                 [("semantic", 0.0); ("fulltext", 0.9); ("hybrid", 0.5)]
                 [("semantic", 0.0); ("fulltext", 0.0); ("hybrid", 0.0)]
                 "hybrid" <? 0.1)
      then "hybrid" else best.
Proof.
  destruct (select_strategy_by_scores_spec
              [("semantic", 0.0); ("fulltext", 0.9); ("hybrid", 0.5)]
              [("semantic", 0.0); ("fulltext", 0.0); ("hybrid", 0.0)])
    as [best [Hin [_ [_ [_ Hsel]]]]].
  - intros s [<- | [<- | [<- | []]]]; vm_compute; reflexivity.
  - exists best. split; [exact Hin | exact Hsel].
Defined.

End StrategyFacts.

(** ** Dictionaries *)

Section DictFacts.

Variables K V : Type.
Variable eqb : K -> K -> bool.
Hypothesis eqb_eq : forall a b, eqb a b = true <-> a = b.

Lemma eqb_refl (k : K) : eqb k k = true.
Proof. now apply eqb_eq. Qed.

Lemma eqb_neq (a b : K) : a <> b -> eqb a b = false.
Proof.
  intros H. destruct (eqb a b) eqn:E; trivial. apply eqb_eq in E. contradiction.
Qed.

Lemma lookup_assign_eq (d : dict K V) (k : K) (v : V) :
  lookup eqb (assign eqb d k v) k = Some v.
Proof.
  induction d as [|[k' v'] d IH]; simpl.
  - now rewrite eqb_refl.
  - destruct (eqb k' k) eqn:E; simpl; rewrite E; trivial.
Qed.

Lemma lookup_assign_neq (d : dict K V) (k k' : K) (v : V) :
  k <> k' -> lookup eqb (assign eqb d k v) k' = lookup eqb d k'.
Proof.
  intros Hne. induction d as [|[k0 v0] d IH]; simpl.
  - now rewrite eqb_neq.
  - destruct (eqb k0 k) eqn:E; simpl.
    + apply eqb_eq in E. subst k0. now rewrite eqb_neq.
    + now rewrite IH.
Qed.

Lemma lookup_None (d : dict K V) (k : K) :
  lookup eqb d k = None <-> ~ In k (keys d).
Proof.
  induction d as [|[k' v'] d IH]; simpl.
  - tauto.
  - destruct (eqb k' k) eqn:E.
    + apply eqb_eq in E. split; [discriminate | intros H; exfalso; auto].
    + rewrite IH. split.
      * intros H [H' | H']; [| contradiction].
        apply eqb_eq in H'. congruence.
      * tauto.
Qed.

Lemma lookup_Some_In (d : dict K V) (k : K) (v : V) :
  lookup eqb d k = Some v -> In (k, v) d.
Proof.
  induction d as [|[k' v'] d IH]; simpl; [discriminate |].
  destruct (eqb k' k) eqn:E.
  - apply eqb_eq in E. intros [= ->]. left. now subst.
  - intros H. right. now apply IH.
Qed.

Lemma In_lookup (d : dict K V) (k : K) (v : V) :
  NoDup (keys d) -> In (k, v) d -> lookup eqb d k = Some v.
Proof.
  induction d as [|[k' v'] d IH]; simpl; [contradiction |].
  intros Hnd [[= -> ->] | Hin].
  - now rewrite eqb_refl.
  - inversion Hnd as [|? ? Hnotin Hnd']; subst.
    destruct (eqb k' k) eqn:E.
    + apply eqb_eq in E. subst k'. exfalso. apply Hnotin.
      change k with (fst (k, v)). now apply in_map.
    + now apply IH.
Qed.

Lemma In_assign (d : dict K V) (k k' : K) (v v' : V) :
  In (k', v') (assign eqb d k v) -> (k' = k /\ v' = v) \/ In (k', v') d.
Proof.
  induction d as [|[k0 v0] d IH]; simpl.
  - intros [[= <- <-] | []]. now left.
  - destruct (eqb k0 k) eqn:E; simpl.
    + apply eqb_eq in E. subst k0.
      intros [[= <- <-] | H]; [now left | now right; right].
    + intros [H | H]; [now right; left |].
      destruct (IH H) as [H' | H']; [now left | now right; right].
Qed.

Lemma keys_assign_In (d : dict K V) (k k' : K) (v : V) :
  In k' (keys (assign eqb d k v)) -> k' = k \/ In k' (keys d).
Proof.
  induction d as [|[k0 v0] d IH]; simpl.
  - intros [<- | []]. now left.
  - destruct (eqb k0 k) eqn:E; simpl.
    + intros [<- | H]; [now right; left | now right; right].
    + intros [<- | H]; [now right; left |].
      destruct (IH H) as [H' | H']; [now left | now right; right].
Qed.

Lemma keys_assign_NoDup (d : dict K V) (k : K) (v : V) :
  NoDup (keys d) -> NoDup (keys (assign eqb d k v)).
Proof.
  induction d as [|[k0 v0] d IH]; simpl; intros Hnd.
  - constructor; [intros [] | constructor].
  - inversion Hnd as [|? ? Hnotin Hnd']; subst.
    destruct (eqb k0 k) eqn:E; simpl.
    + now constructor.
    + constructor; [| now apply IH].
      intros H. apply keys_assign_In in H. destruct H as [-> | H].
      * rewrite eqb_refl in E. discriminate.
      * contradiction.
Qed.

End DictFacts.

Lemma str_eqb_eq (a b : pystr) : str_eqb a b = true <-> a = b.
Proof.
  unfold str_eqb. destruct (str_eq_dec a b); split; congruence.
Qed.

(** ** Fusion *)

Section ListFacts.

Variable A : Type.

Lemma find_app_last (p : A -> bool) (l : list A) (x : A) :
  find p (l ++ [x])
  = match find p l with
    | Some y => Some y
    | None => if p x then Some x else None
    end.
Proof.
  induction l as [|y l IH]; simpl; [reflexivity |].
  destruct (p y); [reflexivity | exact IH].
Qed.

Lemma filter_perm (p : A -> bool) (l l' : list A) :
  Permutation l l' -> Permutation (List.filter p l) (List.filter p l').
Proof.
  induction 1 as [| x l l' H IH | x y l | l l' l'' H1 IH1 H2 IH2]; simpl.
  - apply perm_nil.
  - destruct (p x); [now apply perm_skip | exact IH].
  - destruct (p x), (p y);
      try apply Permutation_refl; apply perm_swap.
  - now apply Permutation_trans with (List.filter p l').
Qed.

End ListFacts.

Section FusionFacts.

Local Open Scope float_scope.

Lemma result_key_with_score (r : SearchResult) (s : float) :
  result_key (with_score r s) = result_key r.
Proof. reflexivity. Qed.

Lemma well_keyed_assign (m : result_map) (c : Candidate) :
  well_keyed m -> well_keyed (assign str_eqb m (result_key (result c)) c).
Proof.
  intros [Hnd Hk]. split.
  - now apply keys_assign_NoDup with (eqb_eq := str_eqb_eq).
  - intros k c' Hin.
    apply (In_assign _ _ _ str_eqb_eq) in Hin.
    destruct Hin as [[-> ->] | Hin]; [reflexivity | now apply Hk].
Qed.

Lemma well_keyed_add_semantic (m : result_map) (r : SearchResult) :
  well_keyed m -> well_keyed (add_semantic m r).
Proof.
  intros H. unfold add_semantic.
  apply (well_keyed_assign m
           {| result := r; semantic_score := score r; fulltext_score := 0 |} H).
Qed.

Lemma well_keyed_add_fulltext (m : result_map) (r : SearchResult) :
  well_keyed m -> well_keyed (add_fulltext m r).
Proof.
  intros H. unfold add_fulltext.
  destruct (lookup str_eqb m (result_key r)) as [data |] eqn:E.
  - assert (Hk : result_key (result data) = result_key r).
    { destruct H as [_ Hk]. apply Hk.
      now apply lookup_Some_In with (eqb := str_eqb) (eqb_eq := str_eqb_eq). }
    rewrite <- Hk.
    apply (well_keyed_assign m
             {| result := result data; semantic_score := semantic_score data;
                fulltext_score := score r |} H).
  - apply (well_keyed_assign m
             {| result := r; semantic_score := 0; fulltext_score := score r |} H).
Qed.

Lemma well_keyed_fold (f : result_map -> SearchResult -> result_map)
    (l : list SearchResult) :
  (forall m r, well_keyed m -> well_keyed (f m r)) ->
  forall m, well_keyed m -> well_keyed (fold_left f l m).
Proof.
  intros Hf. induction l as [|r l IH]; intros m Hm; simpl; auto.
Qed.

Lemma well_keyed_merge (semantic_results fulltext_results : list SearchResult) :
  well_keyed (merge semantic_results fulltext_results).
Proof.
  unfold merge.
  apply well_keyed_fold; [exact well_keyed_add_fulltext |].
  apply well_keyed_fold; [exact well_keyed_add_semantic |].
  split; [constructor | intros k c []].
Qed.

(** After the loop over the semantic results a key holds the last semantic
    result that carries it. *)
Lemma lookup_after_semantic (k : pystr) (l : list SearchResult) :
  forall m,
    lookup str_eqb (fold_left add_semantic l m) k
    = match last_with_key k l with
      | Some r =>
        Some {| result := r; semantic_score := score r; fulltext_score := 0 |}
      | None => lookup str_eqb m k
      end.
Proof.
  induction l as [|r l IH]; intros m; [reflexivity |].
  simpl fold_left. rewrite IH.
  unfold last_with_key. simpl rev. rewrite find_app_last.
  destruct (find _ (rev l)); [reflexivity |].
  unfold add_semantic.
  destruct (str_eqb (result_key r) k) eqn:E.
  - apply str_eqb_eq in E. rewrite E.
    now rewrite lookup_assign_eq by exact str_eqb_eq.
  - rewrite lookup_assign_neq; [reflexivity | exact str_eqb_eq |].
    intros H. apply str_eqb_eq in H. congruence.
Qed.

(** The loop over the fulltext results keeps the result and the semantic
    score of a key that is present, and leaves the score of the last
    fulltext result that carries the key. *)
Lemma lookup_after_fulltext (k : pystr) (l : list SearchResult) :
  forall m c,
    lookup str_eqb m k = Some c ->
    lookup str_eqb (fold_left add_fulltext l m) k
    = Some {| result := result c;
              semantic_score := semantic_score c;
              fulltext_score :=
                match last_with_key k l with
                | Some r => score r
                | None => fulltext_score c
                end |}.
Proof.
  induction l as [|r l IH]; intros m c Hc.
  - simpl. rewrite Hc. now destruct c.
  - simpl fold_left.
    unfold last_with_key. simpl rev. rewrite find_app_last.
    fold (last_with_key k l).
    destruct (str_eqb (result_key r) k) eqn:E.
    + pose proof E as E'. apply str_eqb_eq in E'.
      assert (Hc' : lookup str_eqb (add_fulltext m r) k
                    = Some {| result := result c;
                              semantic_score := semantic_score c;
                              fulltext_score := score r |}).
      { unfold add_fulltext. rewrite E', Hc.
        now rewrite lookup_assign_eq by exact str_eqb_eq. }
      rewrite (IH _ _ Hc'). simpl.
      now destruct (last_with_key k l).
    + assert (Hc' : lookup str_eqb (add_fulltext m r) k = Some c).
      { unfold add_fulltext.
        assert (Hne : result_key r <> k)
          by (intros H; apply str_eqb_eq in H; congruence).
        destruct (lookup str_eqb m (result_key r));
          rewrite lookup_assign_neq; trivial; exact str_eqb_eq. }
      rewrite (IH _ _ Hc'). now destruct (last_with_key k l).
Qed.

Lemma with_key_combine (m : result_map) (sw fw ms : float) (k : pystr) :
  well_keyed m ->
  with_key k (combine m sw fw ms)
  = match lookup str_eqb m k with
    | Some c =>
      if ms <=? combined_score sw fw c
      then [with_score (result c) (combined_score sw fw c)] else []
    | None => []
    end.
Proof.
  induction m as [|[k0 c0] m IH]; intros [Hnd Hk]; [reflexivity |].
  inversion Hnd as [|? ? Hnotin Hnd']; subst.
  assert (Hm : well_keyed m).
  { split; [exact Hnd' |]. intros k' c' H. apply Hk. now right. }
  assert (Hk0 : result_key (result c0) = k0) by (apply Hk; now left).
  unfold with_key, combine in *. simpl flat_map. rewrite filter_app.
  simpl snd. simpl lookup.
  destruct (str_eqb k0 k) eqn:E.
  - apply str_eqb_eq in E. subst k.
    rewrite (IH Hm).
    replace (lookup str_eqb m k0) with (@None Candidate)
      by (symmetry; now apply (lookup_None _ _ _ str_eqb_eq)).
    rewrite app_nil_r.
    destruct (ms <=? combined_score sw fw c0); [| reflexivity].
    cbn [List.filter]. rewrite result_key_with_score, Hk0.
    now replace (str_eqb k0 k0) with true by (symmetry; now apply str_eqb_eq).
  - rewrite (IH Hm).
    destruct (ms <=? combined_score sw fw c0); [| reflexivity].
    cbn [List.filter]. rewrite result_key_with_score, Hk0, E. reflexivity.
Qed.

Lemma In_combine (m : result_map) (sw fw ms : float) (r : SearchResult) :
  In r (combine m sw fw ms) <->
  exists k c,
    In (k, c) m /\ (ms <=? combined_score sw fw c) = true /\
    r = with_score (result c) (combined_score sw fw c).
Proof.
  unfold combine. rewrite in_flat_map. split.
  - intros [[k c] [Hin Hr]]. simpl in Hr.
    destruct (ms <=? combined_score sw fw c) eqn:E; [| contradiction].
    destruct Hr as [<- | []]. now exists k, c.
  - intros [k [c [Hin [E ->]]]]. exists (k, c). split; [exact Hin |].
    simpl. rewrite E. now left.
Qed.

Lemma with_key_fuse (sem ft : list SearchResult) (sw fw ms : float)
    (k : pystr) (rs rf : SearchResult) :
  last_with_key k sem = Some rs ->
  last_with_key k ft = Some rf ->
  with_key k (fuse sem ft sw fw ms)
  = if ms <=? score rs * sw + score rf * fw
    then [with_score rs (score rs * sw + score rf * fw)] else [].
Proof.
  intros Hs Hf.
  assert (Hl : lookup str_eqb (merge sem ft) k
               = Some {| result := rs; semantic_score := score rs;
                         fulltext_score := score rf |}).
  { unfold merge.
    rewrite (lookup_after_fulltext k ft _
               {| result := rs; semantic_score := score rs;
                  fulltext_score := 0 |}).
    - now rewrite Hf.
    - now rewrite lookup_after_semantic, Hs. }
  pose proof (with_key_combine (merge sem ft) sw fw ms k
                (well_keyed_merge sem ft)) as Hc.
  rewrite Hl in Hc. unfold combined_score in Hc. simpl in Hc.
  assert (Hp : Permutation
                 (with_key k (combine (merge sem ft) sw fw ms))
                 (with_key k (fuse sem ft sw fw ms))).
  { unfold with_key, fuse. apply filter_perm, Permutation_sym, sort_desc_perm. }
  rewrite Hc in Hp.
  destruct (ms <=? score rs * sw + score rf * fw).
  - now apply Permutation_length_1_inv.
  - now apply Permutation_nil.
Qed.

Lemma fuse_scores_reach_min (sem ft : list SearchResult)
    (sw fw ms : float) :
  Forall (fun r => (ms <=? score r) = true) (fuse sem ft sw fw ms).
Proof.
  apply Forall_forall. intros r Hr. unfold fuse in Hr.
  apply (proj1 (sort_desc_In _ _ _ _)) in Hr. apply In_combine in Hr.
  destruct Hr as [k [c [_ [E ->]]]]. exact E.
Qed.

(** C4: every result of the fused list has a score of at least [min_score],
    the list is in descending order of score, and its results are exactly
    the candidates of the merged map whose combined score reaches
    [min_score], each carrying that combined score. *)
Theorem fuse_filtered_sorted (sem ft : list SearchResult) (sw fw ms : float) :
  Forall (fun r => (ms <=? score r) = true) (fuse sem ft sw fw ms) /\
  descending score (fuse sem ft sw fw ms) /\
  (forall r,
     In r (fuse sem ft sw fw ms) <->
     exists k c,
       In (k, c) (merge sem ft) /\
       (ms <=? combined_score sw fw c) = true /\
       r = with_score (result c) (combined_score sw fw c)).
Proof.
  assert (Hall : forall r, In r (combine (merge sem ft) sw fw ms) ->
                           (ms <=? score r) = true).
  { intros r Hr. apply In_combine in Hr.
    destruct Hr as [k [c [_ [E ->]]]]. exact E. }
  split; [| split].
  - apply Forall_forall. intros r Hr. apply Hall.
    unfold fuse in Hr. now apply (proj1 (sort_desc_In _ _ _ _)) in Hr.
  - unfold fuse. apply sort_desc_descending.
    apply Forall_forall. intros r Hr.
    apply leb_number_r with ms. now apply Hall.
  - intros r. unfold fuse. rewrite sort_desc_In. apply In_combine.
Qed.

End FusionFacts.

(** ** Reranking *)

Section RerankFacts.

Local Open Scope float_scope.

(** C6: [rerank] never raises; when the model is not loaded, or its call
    errors, it returns 1.0 for each of the [len(texts)] texts. *)
Theorem rerank_fallback (model : option RerankingService.bge_model)
    (query : pystr) (texts : list pystr) :
  (exists scores, RerankingService.rerank model query texts = Returned scores)
  /\
  ((model = None \/
    exists compute e, model = Some compute /\ compute query texts = Raised e) ->
   RerankingService.rerank model query texts
   = Returned (repeat 1.0 (length texts))
   /\ length (repeat 1.0 (length texts)) = length texts
   /\ Forall (fun s => s = 1.0) (repeat 1.0 (length texts))).
Proof.
  unfold RerankingService.rerank. split.
  - destruct model as [compute |]; simpl.
    + destruct (compute query texts); simpl; eexists; reflexivity.
    + eexists; reflexivity.
  - intros H. split; [| split].
    + destruct H as [-> | [compute [e [-> E]]]]; simpl; [reflexivity |].
      now rewrite E.
    + apply repeat_length.
    + apply Forall_forall. intros s Hs. now apply repeat_spec in Hs.
Qed.

Lemma rerank_fallback_witness :
  RerankingService.rerank None (lit "q") [lit "a"; lit "b"]
  = Returned [1.0; 1.0]
  /\
  RerankingService.rerank
    (Some (fun _ _ => Raised (ServiceError "encode"))) (lit "q")
    [lit "a"; lit "b"]
  = Returned [1.0; 1.0].
Proof.
  split.
  - apply (rerank_fallback None (lit "q") [lit "a"; lit "b"]).
    now left.
  - apply (rerank_fallback
             (Some (fun _ _ => Raised (ServiceError "encode")))
             (lit "q") [lit "a"; lit "b"]).
    right. eexists. eexists. split; reflexivity.
Defined.

Lemma assign_scores_length (results : list SearchResult) (scores : list float) :
  length (fst (assign_scores results scores)) = length results.
Proof.
  revert scores. induction results as [|r results IH]; intros scores.
  - reflexivity.
  - destruct scores as [|s scores]; [reflexivity |].
    simpl. specialize (IH scores).
    destruct (assign_scores results scores). simpl in *. now rewrite IH.
Qed.

Lemma rerank_results_returns (svc : Services) (query : pystr)
    (results : list SearchResult) :
  exists reranked,
    _rerank_results svc query results = Returned reranked /\
    length reranked = length results.
Proof.
  unfold _rerank_results.
  destruct (reranking_service svc query (map content results)) as [scores | e].
  - pose proof (assign_scores_length results scores) as Hl.
    destruct (assign_scores results scores) as [rs [|]]; simpl in Hl.
    + eexists. split; [reflexivity |]. now rewrite sort_desc_length.
    + eexists. split; [reflexivity | exact Hl].
  - eexists. split; reflexivity.
Qed.

Lemma rerank_stage_returns (svc : Services) (query : pystr)
    (use_reranking : bool) (results : list SearchResult) :
  exists reranked,
    rerank_stage svc query use_reranking results = Returned reranked /\
    length reranked = length results.
Proof.
  unfold rerank_stage.
  destruct (use_reranking && (1 <? len results)%Z).
  - apply rerank_results_returns.
  - eexists. split; reflexivity.
Qed.

Lemma assign_scores_uniform (results : list SearchResult) (s : float) :
  assign_scores results (repeat s (length results))
  = (map (fun r => with_score r s) results, true).
Proof.
  induction results as [|r results IH]; [reflexivity |].
  simpl. now rewrite IH.
Qed.

Lemma ltb_irrefl (x : float) : (x <? x) = false.
Proof.
  destruct (x <? x) eqn:E; [| reflexivity].
  exfalso. revert E. to_spec. sf_cases; fold Pos.compare in *; cmp_cases.
Qed.

Lemma sort_desc_uniform (results : list SearchResult) (s : float) :
  sort_desc score (map (fun r => with_score r s) results)
  = map (fun r => with_score r s) results.
Proof.
  apply sort_desc_tied. intros x y Hx Hy.
  apply in_map_iff in Hx. apply in_map_iff in Hy.
  destruct Hx as [x0 [<- _]]. destruct Hy as [y0 [<- _]].
  apply ltb_irrefl.
Qed.

(** With the repository's reranking service in its fallback, every result
    gets the score 1.0 and the order of the list is kept. *)
Lemma rerank_results_fallback_keeps_order (svc : Services) (query : pystr)
    (results : list SearchResult) :
  reranking_service svc query (map content results)
  = Returned (repeat 1.0 (length (map content results))) ->
  _rerank_results svc query results
  = Returned (map (fun r => with_score r 1.0) results).
Proof.
  intros H. unfold _rerank_results. rewrite H, length_map.
  now rewrite assign_scores_uniform, sort_desc_uniform.
Qed.

End RerankFacts.

(** ** Clustering *)

Section ClusterFacts.

Local Open Scope Z_scope.

Lemma insert_asc_perm (x : Z) (l : list Z) :
  Permutation (insert_asc x l) (x :: l).
Proof.
  induction l as [|y l IH]; simpl.
  - apply Permutation_refl.
  - destruct (y <? x).
    + apply Permutation_trans with (y :: x :: l);
        [now apply perm_skip | apply perm_swap].
    + apply Permutation_refl.
Qed.

Lemma sorted_asc_perm (l : list Z) : Permutation (sorted_asc l) l.
Proof.
  induction l as [|x l IH]; simpl.
  - apply perm_nil.
  - apply Permutation_trans with (x :: sorted_asc l);
      [apply insert_asc_perm | now apply perm_skip].
Qed.

Lemma insert_asc_sorted (x : Z) (l : list Z) :
  StronglySorted Z.le l -> StronglySorted Z.le (insert_asc x l).
Proof.
  induction 1 as [|y l Hs IH Hy]; simpl.
  - constructor; constructor.
  - destruct (y <? x) eqn:E.
    + apply Z.ltb_lt in E. constructor; [exact IH |].
      apply Forall_forall. intros z Hz.
      apply (Permutation_in _ (insert_asc_perm x l)) in Hz.
      destruct Hz as [<- | Hz]; [lia |].
      rewrite Forall_forall in Hy. now apply Hy.
    + apply Z.ltb_ge in E. constructor; [now constructor |].
      constructor; [exact E |].
      apply Forall_forall. intros z Hz. rewrite Forall_forall in Hy.
      specialize (Hy z Hz). lia.
Qed.

Lemma sorted_asc_sorted (l : list Z) : StronglySorted Z.le (sorted_asc l).
Proof.
  induction l as [|x l IH]; simpl; [constructor | now apply insert_asc_sorted].
Qed.

Lemma sorted_NoDup_strict (l : list Z) :
  StronglySorted Z.le l -> NoDup l -> StronglySorted Z.lt l.
Proof.
  induction 1 as [|x l Hs IH Hx]; intros Hnd; [constructor |].
  inversion Hnd as [|? ? Hnotin Hnd']; subst.
  constructor; [now apply IH |].
  apply Forall_forall. intros z Hz. rewrite Forall_forall in Hx.
  specialize (Hx z Hz). assert (x <> z) by (intros ->; contradiction). lia.
Qed.

Lemma add_to_cluster_cons (k : Z) (v : list SearchResult) (m : cluster_map)
    (cluster_id : Z) (r : SearchResult) :
  add_to_cluster ((k, v) :: m) cluster_id r
  = if k =? cluster_id then (k, (v ++ [r])%list) :: m
    else (k, v) :: add_to_cluster m cluster_id r.
Proof.
  unfold add_to_cluster. simpl.
  destruct (k =? cluster_id) eqn:E; simpl; [reflexivity |].
  destruct (lookup Z.eqb m cluster_id); reflexivity.
Qed.

Lemma members_of_add (m : cluster_map) (cluster_id c : Z) (r : SearchResult) :
  members_of (add_to_cluster m cluster_id r) c
  = if c =? cluster_id then (members_of m c ++ [r])%list else members_of m c.
Proof.
  induction m as [|[k v] m IH].
  - unfold add_to_cluster, members_of. simpl.
    rewrite (Z.eqb_sym cluster_id c). now destruct (c =? cluster_id).
  - rewrite add_to_cluster_cons.
    destruct (k =? cluster_id) eqn:E.
    + apply Z.eqb_eq in E. subst k. unfold members_of. simpl.
      rewrite (Z.eqb_sym cluster_id c). now destruct (c =? cluster_id).
    + unfold members_of in *. simpl.
      destruct (k =? c) eqn:E'; [| exact IH].
      apply Z.eqb_eq in E'. subst k. now rewrite E.
Qed.

Lemma keys_add (m : cluster_map) (cluster_id c : Z) (r : SearchResult) :
  In c (keys (add_to_cluster m cluster_id r)) <-> c = cluster_id \/ In c (keys m).
Proof.
  induction m as [|[k v] m IH].
  - unfold add_to_cluster. simpl. intuition.
  - rewrite add_to_cluster_cons.
    destruct (k =? cluster_id) eqn:E.
    + apply Z.eqb_eq in E. subst k. simpl. intuition.
    + simpl. unfold keys in IH. rewrite IH. intuition.
Qed.

Lemma keys_add_NoDup (m : cluster_map) (cluster_id : Z) (r : SearchResult) :
  NoDup (keys m) -> NoDup (keys (add_to_cluster m cluster_id r)).
Proof.
  induction m as [|[k v] m IH]; intros Hnd.
  - unfold add_to_cluster. simpl. constructor; [intros [] | constructor].
  - rewrite add_to_cluster_cons. inversion Hnd as [|? ? Hnotin Hnd']; subst.
    destruct (k =? cluster_id) eqn:E; [exact Hnd |].
    simpl. constructor; [| now apply IH].
    intros H. apply keys_add in H. destruct H as [-> | H].
    * rewrite Z.eqb_refl in E. discriminate.
    * contradiction.
Qed.

Lemma cluster_members_cons (c : Z) (r : SearchResult) (results : list SearchResult)
    (l : Z) (labels : list Z) :
  cluster_members c (r :: results) (l :: labels)
  = if l =? c then r :: cluster_members c results labels
    else cluster_members c results labels.
Proof. unfold cluster_members. simpl. now destruct (l =? c). Qed.

(** The loop completes exactly when there is a label for every result, and
    then the map holds for each label its results in input order. *)
Lemma build_cluster_map_spec (results : list SearchResult) :
  forall (labels : list Z) (m0 : cluster_map),
    (length results <= length labels)%nat ->
    exists m,
      build_cluster_map results labels m0 = Returned m /\
      (forall c, members_of m c
                 = (members_of m0 c ++ cluster_members c results labels)%list) /\
      (NoDup (keys m0) -> NoDup (keys m)) /\
      (forall c, In c (keys m) <->
                 In c (keys m0) \/ In c (firstn (length results) labels)).
Proof.
  induction results as [|r results IH]; intros labels m0 Hlen.
  - exists m0. simpl. repeat split; auto.
    + intros c. unfold cluster_members. simpl. now rewrite app_nil_r.
    + intros [H | []]. exact H.
  - destruct labels as [|l labels]; [simpl in Hlen; lia |].
    simpl in Hlen.
    destruct (IH labels (add_to_cluster m0 l r)) as [m [Hb [Hm [Hnd Hk]]]];
      [lia |].
    exists m. simpl build_cluster_map. split; [exact Hb |]. split; [| split].
    + intros c. rewrite Hm, members_of_add, cluster_members_cons.
      rewrite (Z.eqb_sym c l).
      destruct (l =? c); [now rewrite <- app_assoc | reflexivity].
    + intros H. now apply Hnd, keys_add_NoDup.
    + intros c. rewrite Hk, keys_add. simpl. intuition.
Qed.

Lemma build_cluster_map_short (results : list SearchResult) :
  forall (labels : list Z) (m0 : cluster_map),
    (length labels < length results)%nat ->
    build_cluster_map results labels m0 = Raised IndexError.
Proof.
  induction results as [|r results IH]; intros labels m0 Hlen.
  - simpl in Hlen. lia.
  - destruct labels as [|l labels]; [reflexivity |].
    simpl in *. apply IH. lia.
Qed.

Lemma members_of_name_clusters (m : cluster_map) (c : Z) :
  members_of (name_clusters m) c
  = map (fun r => with_cluster r (cluster_name c (members_of m c)))
        (members_of m c).
Proof.
  unfold members_of. induction m as [|[k v] m IH]; [reflexivity |].
  simpl. destruct (k =? c) eqn:E; [| exact IH].
  apply Z.eqb_eq in E. now subst k.
Qed.

Lemma keys_name_clusters (m : cluster_map) : keys (name_clusters m) = keys m.
Proof.
  unfold keys, name_clusters. rewrite map_map. now apply map_ext.
Qed.

Lemma cluster_members_In (c : Z) (results : list SearchResult) :
  forall labels r, In r (cluster_members c results labels) -> In r results.
Proof.
  induction results as [|x results IH]; intros labels r H.
  - destruct labels; contradiction.
  - destruct labels as [|l labels]; [contradiction |].
    rewrite cluster_members_cons in H.
    destruct (l =? c); [destruct H as [<- | H] |]; simpl; eauto.
Qed.

Lemma cluster_members_nonempty (c : Z) (results : list SearchResult) :
  forall labels,
    In c (firstn (length results) labels) ->
    cluster_members c results labels <> [].
Proof.
  induction results as [|x results IH]; intros labels H.
  - contradiction.
  - destruct labels as [|l labels]; [contradiction |].
    rewrite cluster_members_cons. simpl in H.
    destruct (l =? c) eqn:E; [discriminate |].
    destruct H as [-> | H]; [rewrite Z.eqb_refl in E; discriminate |].
    now apply IH.
Qed.

Lemma cluster_name_representative (c : Z) (members : list SearchResult) :
  members <> [] -> numbered score members ->
  representative_name c members (cluster_name c members).
Proof.
  intros Hne Hn. destruct members as [|x members]; [contradiction |].
  unfold cluster_name, max_by. exists (max_from score x members).
  split; [apply max_from_In |]. split; [now apply max_from_ge |].
  reflexivity.
Qed.

Lemma score_with_cluster (r : SearchResult) (label : pystr) :
  score (with_cluster r label) = score r.
Proof. reflexivity. Qed.

(** What [_cluster_results] returns when the labels arrive and cover the
    results. *)
Lemma cluster_results_completed (svc : Services) (results : list SearchResult)
    (labels : list Z) :
  (2 <= length results)%nat ->
  dbscan_labels svc (map content results) = Returned labels ->
  (length results <= length labels)%nat ->
  exists m,
    build_cluster_map results labels [] = Returned m /\
    _cluster_results svc results
    = Returned (reorganize (name_clusters m), cluster_infos m) /\
    (forall c, members_of m c = cluster_members c results labels) /\
    NoDup (keys m) /\
    (forall c, In c (keys m) <-> In c (firstn (length results) labels)).
Proof.
  intros H2 Hl Hlen.
  destruct (build_cluster_map_spec results labels [] Hlen)
    as [m [Hb [Hm [Hnd Hk]]]].
  exists m. split; [exact Hb |]. split; [| split; [| split]].
  - unfold _cluster_results.
    replace (len results <=? 1) with false
      by (symmetry; apply Z.leb_gt; unfold len; lia).
    rewrite Hl. simpl bind. rewrite Hb. reflexivity.
  - intros c. now rewrite Hm.
  - apply Hnd. constructor.
  - intros c. rewrite Hk. simpl. tauto.
Qed.

(** C8: when clustering completes, the returned list is the concatenation
    of one group per cluster label; the labels of the groups are strictly
    ascending; the group of a label holds exactly the results with that
    label, each with its cluster field set to the representative name of the
    cluster, in descending order of score.  Scores are numbers (no NaN). *)
Theorem cluster_results_grouped (svc : Services) (results : list SearchResult)
    (labels : list Z) :
  (2 <= length results)%nat ->
  numbered score results ->
  dbscan_labels svc (map content results) = Returned labels ->
  (length results <= length labels)%nat ->
  exists (groups : list (Z * list SearchResult)) (infos : list ClusterInfo),
    _cluster_results svc results = Returned (concat (map snd groups), infos) /\
    StronglySorted Z.lt (map fst groups) /\
    (forall c, In c (map fst groups) <->
               In c (firstn (length results) labels)) /\
    Forall
      (fun g =>
         let members := cluster_members (fst g) results labels in
         let label := cluster_name (fst g) members in
         representative_name (fst g) members label /\
         Permutation (snd g) (map (fun r => with_cluster r label) members) /\
         Forall (fun r => cluster r = Some label) (snd g) /\
         descending score (snd g))
      groups.
Proof.
  intros H2 Hn Hl Hlen.
  destruct (cluster_results_completed svc results labels H2 Hl Hlen)
    as [m [_ [Hr [Hm [Hnd Hk]]]]].
  exists (map (fun c => (c, sort_desc score (members_of (name_clusters m) c)))
              (sorted_asc (keys m))),
         (cluster_infos m).
  assert (Hfst : map fst
                   (map (fun c => (c, sort_desc score
                                        (members_of (name_clusters m) c)))
                        (sorted_asc (keys m)))
                 = sorted_asc (keys m)).
  { rewrite map_map. simpl. apply map_id. }
  split; [| split; [| split]].
  - rewrite Hr. unfold reorganize. rewrite keys_name_clusters.
    rewrite flat_map_concat_map, map_map. reflexivity.
  - rewrite Hfst. apply sorted_NoDup_strict; [apply sorted_asc_sorted |].
    apply (Permutation_NoDup (Permutation_sym (sorted_asc_perm (keys m)))).
    exact Hnd.
  - intros c. rewrite Hfst, <- Hk. split; apply Permutation_in;
      [apply sorted_asc_perm | apply Permutation_sym, sorted_asc_perm].
  - apply Forall_forall. intros g Hg. apply in_map_iff in Hg.
    destruct Hg as [c [<- Hc]]. simpl fst. simpl snd.
    apply (Permutation_in _ (sorted_asc_perm (keys m))) in Hc.
    apply Hk in Hc.
    rewrite members_of_name_clusters, Hm.
    set (members := cluster_members c results labels).
    assert (Hmn : numbered score members).
    { apply Forall_forall. intros r Hr'.
      unfold numbered in Hn. rewrite Forall_forall in Hn.
      apply Hn. now apply cluster_members_In in Hr'. }
    cbv zeta. split; [| split; [| split]].
    + apply cluster_name_representative; [| exact Hmn].
      now apply cluster_members_nonempty.
    + apply sort_desc_perm.
    + apply Forall_forall. intros r Hr'.
      apply (proj1 (sort_desc_In _ _ _ _)) in Hr'. apply in_map_iff in Hr'.
      destruct Hr' as [r0 [<- _]]. reflexivity.
    + apply sort_desc_descending. apply Forall_forall. intros r Hr'.
      apply in_map_iff in Hr'. destruct Hr' as [r0 [<- Hr0]].
      rewrite score_with_cluster.
      unfold numbered in Hmn. rewrite Forall_forall in Hmn. now apply Hmn.
Qed.

Lemma cluster_results_grouped_witness :
  let results := [sample_result "d1" "one" "a" 0.5;
                  sample_result "d2" "two" "" 0.9;
                  sample_result "d3" "three" "c" 0.7] in
  let labels := [1; 0; 1] in
  let svc := sample_services (Returned []) (Returned []) None (Returned labels) in
  exists (groups : list (Z * list SearchResult)) (infos : list ClusterInfo),
    _cluster_results svc results = Returned (concat (map snd groups), infos) /\
    StronglySorted Z.lt (map fst groups) /\
    (forall c, In c (map fst groups) <->
               In c (firstn (length results) labels)) /\
    Forall
      (fun g =>
         let members := cluster_members (fst g) results labels in
         let label := cluster_name (fst g) members in
         representative_name (fst g) members label /\
         Permutation (snd g) (map (fun r => with_cluster r label) members) /\
         Forall (fun r => cluster r = Some label) (snd g) /\
         descending score (snd g))
      groups.
Proof.
  intros results labels svc.
  apply (cluster_results_grouped svc results labels).
  - simpl. lia.
  - repeat constructor.
  - reflexivity.
  - simpl. lia.
Defined.

(** *** Clustering keeps every result *)

Lemma flat_map_length_ext {A B : Type} (f g : A -> list B) (l : list A) :
  (forall x, In x l -> length (f x) = length (g x)) ->
  length (flat_map f l) = length (flat_map g l).
Proof.
  induction l as [|x l IH]; intros H; [reflexivity |].
  simpl. rewrite !length_app, IH, (H x); auto; simpl; auto.
  intros y Hy. apply H. now right.
Qed.

Lemma population_members (m : cluster_map) :
  NoDup (keys m) ->
  length (flat_map (members_of m) (keys m)) = population m.
Proof.
  unfold population. induction m as [|[k v] m IH]; intros Hnd; [reflexivity |].
  inversion Hnd as [|? ? Hnotin Hnd']; subst.
  simpl. rewrite !length_app. f_equal.
  - unfold members_of. simpl. now rewrite Z.eqb_refl.
  - rewrite <- (IH Hnd'). apply flat_map_length_ext.
    intros c Hc. unfold members_of. simpl.
    destruct (k =? c) eqn:E; [| reflexivity].
    apply Z.eqb_eq in E. subst k. contradiction.
Qed.

Lemma population_name_clusters (m : cluster_map) :
  population (name_clusters m) = population m.
Proof.
  unfold population. induction m as [|[k v] m IH]; [reflexivity |].
  simpl. rewrite !length_app, length_map. f_equal. exact IH.
Qed.

Lemma population_add (m : cluster_map) (c : Z) (r : SearchResult) :
  population (add_to_cluster m c r) = S (population m).
Proof.
  unfold population. induction m as [|[k v] m IH]; [reflexivity |].
  rewrite add_to_cluster_cons. destruct (k =? c); simpl.
  - rewrite !length_app. simpl. lia.
  - rewrite !length_app, IH. lia.
Qed.

Lemma population_build (results : list SearchResult) :
  forall labels m0 m,
    build_cluster_map results labels m0 = Returned m ->
    population m = (population m0 + length results)%nat /\
    (NoDup (keys m0) -> NoDup (keys m)).
Proof.
  induction results as [|r results IH]; intros labels m0 m H.
  - injection H as <-. simpl. split; [lia | auto].
  - destruct labels as [|l labels]; [discriminate |].
    simpl in H. apply IH in H. destruct H as [Hp Hnd].
    rewrite population_add in Hp. split; [simpl; lia |].
    intros H0. now apply Hnd, keys_add_NoDup.
Qed.

Lemma reorganize_length (m : cluster_map) :
  NoDup (keys m) -> length (reorganize m) = population m.
Proof.
  intros Hnd. unfold reorganize.
  rewrite (flat_map_length_ext _ (members_of m))
    by (intros; apply sort_desc_length).
  rewrite <- (population_members m Hnd).
  apply Permutation_length, Permutation_flat_map, sorted_asc_perm.
Qed.

(** [_cluster_results] never raises and keeps the number of results. *)
Lemma cluster_results_returns (svc : Services) (results : list SearchResult) :
  exists clustered infos,
    _cluster_results svc results = Returned (clustered, infos) /\
    length clustered = length results.
Proof.
  unfold _cluster_results.
  destruct (len results <=? 1); [simpl; eauto |].
  destruct (dbscan_labels svc (map content results)) as [labels | e];
    [| simpl; eauto].
  simpl bind.
  destruct (build_cluster_map results labels []) as [m | e] eqn:Hb;
    [| simpl; eauto].
  simpl. eexists. eexists. split; [reflexivity |].
  apply population_build in Hb. destruct Hb as [Hp Hnd].
  rewrite reorganize_length, population_name_clusters, Hp; [reflexivity |].
  rewrite keys_name_clusters. apply Hnd. constructor.
Qed.

Lemma cluster_stage_returns (svc : Services) (use_clustering : bool)
    (previous : list ClusterInfo) (results : list SearchResult) :
  exists clustered infos,
    cluster_stage svc use_clustering previous results
    = Returned (clustered, infos) /\
    length clustered = length results.
Proof.
  unfold cluster_stage.
  destruct (use_clustering && (1 <? len results)).
  - apply cluster_results_returns.
  - eauto.
Qed.

(** C9: with fewer than 2 results clustering returns the list as it is and
    no cluster summary. *)
Theorem cluster_results_small (svc : Services) (results : list SearchResult) :
  (length results < 2)%nat ->
  _cluster_results svc results = Returned (results, []).
Proof.
  intros H. unfold _cluster_results.
  replace (len results <=? 1) with true
    by (symmetry; apply Z.leb_le; unfold len; lia).
  reflexivity.
Qed.

Lemma cluster_results_small_witness :
  _cluster_results (sample_services (Returned []) (Returned []) None
                      (Returned [0; 0]))
    [sample_result "doc" "text" "a" 0.9]
  = Returned ([sample_result "doc" "text" "a" 0.9], [])
  /\
  _cluster_results (sample_services (Returned []) (Returned []) None
                      (Returned [0; 0])) []
  = Returned ([], []).
Proof.
  split.
  - apply (cluster_results_small _ [sample_result "doc" "text" "a" 0.9]).
    simpl. lia.
  - apply (cluster_results_small _ []). simpl. lia.
Defined.

End ClusterFacts.

(** ** Orchestration *)

Section SearchFacts.

Local Open Scope string_scope.
Local Open Scope float_scope.

(** *** What the retrievals make of the answers of Milvus *)

Lemma collect_hits_not_below (hits : list Hit) (ms : float) :
  Forall (fun r => (score r <? ms) = false)
    (map result_of_item (collect_hits hits ms)).
Proof.
  apply Forall_forall. intros r Hr. unfold collect_hits in Hr.
  apply in_map_iff in Hr. destruct Hr as [item [<- Hr]].
  apply in_map_iff in Hr. destruct Hr as [hit [<- Hr]].
  apply filter_In in Hr. destruct Hr as [_ Hr]. simpl.
  now destruct (hit_score hit <? ms).
Qed.

Lemma semantic_search_outcome (svc : Services) (query : pystr)
    (kbs : list pystr) (limit : Z) (ms : float) :
  _semantic_search svc query kbs limit ms
  = match vector_hits svc query kbs limit with
    | Returned hits => Returned (results_of_hits hits ms)
    | Raised e => Raised e
    end.
Proof.
  unfold _semantic_search, VectorService.search.
  now destruct (vector_hits svc query kbs limit).
Qed.

Lemma fulltext_search_outcome (svc : Services) (query : pystr)
    (kbs : list pystr) (limit : Z) (ms : float) :
  _fulltext_search svc query kbs limit ms
  = match fulltext_hits svc query kbs limit with
    | Returned hits => Returned (results_of_hits hits ms)
    | Raised e => Raised e
    end.
Proof.
  unfold _fulltext_search, FulltextService.search.
  now destruct (fulltext_hits svc query kbs limit).
Qed.

Lemma legacy_hybrid_search_outcome (svc : Services) (query : pystr)
    (kbs : list pystr) (sw fw : float) (limit : Z) (ms : float) :
  _legacy_hybrid_search svc query kbs sw fw limit ms
  = match vector_hits svc query kbs limit with
    | Raised e => Raised e
    | Returned vector =>
      match fulltext_hits svc query kbs limit with
      | Raised e => Raised e
      | Returned fulltext =>
        Returned
          (fuse (results_of_hits vector (ms * 0.8))
             (results_of_hits fulltext (ms * 0.8)) sw fw ms)
      end
    end.
Proof.
  unfold _legacy_hybrid_search.
  rewrite semantic_search_outcome, fulltext_search_outcome.
  destruct (vector_hits svc query kbs limit); [| reflexivity].
  now destruct (fulltext_hits svc query kbs limit).
Qed.

(** The native search raises before it asks Milvus anything, so the hybrid
    search is the legacy one. *)
Lemma hybrid_search_falls_back (svc : Services) (query : pystr)
    (kbs : list pystr) (sw fw : float) (limit : Z) (ms : float) :
  _hybrid_search svc query kbs sw fw limit ms
  = _legacy_hybrid_search svc query kbs sw fw limit ms.
Proof.
  unfold _hybrid_search, _native_hybrid_search. simpl.
  now destruct (_legacy_hybrid_search svc query kbs sw fw limit ms).
Qed.

Lemma retrieve_returns_in_full (svc : Services) (query : pystr)
    (kbs : list pystr) (strategy : string) (sw fw : float) (max_results : Z)
    (ms : float) (retrieved : list SearchResult) :
  retrieve svc query kbs strategy sw fw max_results ms = Returned retrieved
  <-> retrieved_in_full svc query kbs strategy sw fw max_results ms retrieved.
Proof.
  unfold retrieve, retrieved_in_full.
  destruct (String.eqb_spec strategy "semantic") as [-> | N1].
  { rewrite semantic_search_outcome. split.
    - intros H. left. split; [reflexivity |].
      destruct (vector_hits svc query kbs (max_results * 2)) as [hits | e];
        [| discriminate].
      exists hits. split; [reflexivity | congruence].
    - intros [[_ [hits [Hv ->]]] | [[Habs _] | [Habs _]]];
        try discriminate Habs.
      now rewrite Hv. }
  destruct (String.eqb_spec strategy "fulltext") as [-> | N2].
  { rewrite fulltext_search_outcome. split.
    - intros H. right. left. split; [reflexivity |].
      destruct (fulltext_hits svc query kbs (max_results * 2)) as [hits | e];
        [| discriminate].
      exists hits. split; [reflexivity | congruence].
    - intros [[Habs _] | [[_ [hits [Hv ->]]] | [Habs _]]];
        try discriminate Habs.
      now rewrite Hv. }
  destruct (String.eqb_spec strategy "hybrid") as [-> | N3].
  { rewrite hybrid_search_falls_back, legacy_hybrid_search_outcome. split.
    - intros H. right. right. split; [reflexivity |].
      destruct (vector_hits svc query kbs (max_results * 2)) as [vector | e];
        [| discriminate].
      destruct (fulltext_hits svc query kbs (max_results * 2))
        as [fulltext | e]; [| discriminate].
      exists vector, fulltext. repeat split; congruence.
    - intros [[Habs _] | [[Habs _] | [_ [vector [fulltext [Hv [Hf ->]]]]]]];
        try discriminate Habs.
      now rewrite Hv, Hf. }
  split; [discriminate |].
  intros [[H _] | [[H _] | [H _]]]; contradiction.
Qed.

Lemma retrieve_raises (svc : Services) (query : pystr)
    (kbs : list pystr) (strategy : string) (sw fw : float) (max_results : Z)
    (ms : float) (e : exn) :
  retrieve svc query kbs strategy sw fw max_results ms = Raised e
  <->
  (strategy = "semantic" /\
   vector_hits svc query kbs (max_results * 2) = Raised e)
  \/
  (strategy = "fulltext" /\
   fulltext_hits svc query kbs (max_results * 2) = Raised e)
  \/
  (strategy = "hybrid" /\
   (vector_hits svc query kbs (max_results * 2) = Raised e
    \/
    (exists hits, vector_hits svc query kbs (max_results * 2) = Returned hits)
    /\ fulltext_hits svc query kbs (max_results * 2) = Raised e))
  \/
  (strategy <> "semantic" /\ strategy <> "fulltext" /\ strategy <> "hybrid" /\
   e = ValueError (lit "不支持的检索策略: " ++ lit strategy)%list).
Proof.
  unfold retrieve.
  destruct (String.eqb_spec strategy "semantic") as [-> | N1].
  { rewrite semantic_search_outcome. split.
    - intros H. left. split; [reflexivity |].
      destruct (vector_hits svc query kbs (max_results * 2)); congruence.
    - intros [[_ Hv] | [[Habs _] | [[Habs _] | [Habs _]]]];
        try discriminate Habs; [| contradiction].
      now rewrite Hv. }
  destruct (String.eqb_spec strategy "fulltext") as [-> | N2].
  { rewrite fulltext_search_outcome. split.
    - intros H. right. left. split; [reflexivity |].
      destruct (fulltext_hits svc query kbs (max_results * 2)); congruence.
    - intros [[Habs _] | [[_ Hv] | [[Habs _] | [_ [Habs _]]]]];
        try discriminate Habs; [| contradiction].
      now rewrite Hv. }
  destruct (String.eqb_spec strategy "hybrid") as [-> | N3].
  { rewrite hybrid_search_falls_back, legacy_hybrid_search_outcome. split.
    - intros H. right. right. left. split; [reflexivity |].
      destruct (vector_hits svc query kbs (max_results * 2)) as [vector | e0];
        [| left; congruence].
      right. split; [now exists vector |].
      destruct (fulltext_hits svc query kbs (max_results * 2)); congruence.
    - intros [[Habs _] | [[Habs _] | [[_ H] | [_ [_ [Habs _]]]]]];
        try discriminate Habs; [| contradiction].
      destruct H as [Hv | [[hits Hv] Hf]]; rewrite Hv; [reflexivity |].
      now rewrite Hf. }
  split.
  - intros [= <-]. right. right. right. repeat split; assumption.
  - intros [[H _] | [[H _] | [[H _] | [_ [_ [_ ->]]]]]];
      try contradiction.
    reflexivity.
Qed.

(** C2, as the code has it.  Both retrievals of the fallback keep the hits
    not below [min_score * 0.8].  When [rs] is the last semantic result and
    [rf] the last fulltext result carrying the candidate key [k] among
    those, the fused list holds for that key the single candidate [rs]
    rescored to [score rs * semantic_weight + score rf * fulltext_weight]
    if that score reaches [min_score], and no candidate otherwise.  With
    weights 0.7 and 0.3, scores 0.9 and 0.6 and [min_score] 0.7 the
    candidate is there once with score 0.81. *)
Theorem legacy_hybrid_shared_key (svc : Services) (query : pystr)
    (kbs : list pystr) (sw fw : float) (limit : Z) (ms : float)
    (vector fulltext : list Hit) (k : pystr) (rs rf : SearchResult) :
  vector_hits svc query kbs limit = Returned vector ->
  fulltext_hits svc query kbs limit = Returned fulltext ->
  last_with_key k (results_of_hits vector (ms * 0.8)) = Some rs ->
  last_with_key k (results_of_hits fulltext (ms * 0.8)) = Some rf ->
  (score rs <? ms * 0.8) = false /\
  (score rf <? ms * 0.8) = false /\
  exists fused,
    _legacy_hybrid_search svc query kbs sw fw limit ms = Returned fused /\
    with_key k fused
    = (if ms <=? score rs * sw + score rf * fw
       then [with_score rs (score rs * sw + score rf * fw)] else []) /\
    (sw = 0.7 -> fw = 0.3 -> ms = 0.7 -> score rs = 0.9 -> score rf = 0.6 ->
     with_key k fused = [with_score rs 0.81]).
Proof.
  intros Hv Hf Hs Ht.
  assert (Hkept : forall hits r,
             last_with_key k (results_of_hits hits (ms * 0.8)) = Some r ->
             (score r <? ms * 0.8) = false).
  { intros hits r H. unfold last_with_key in H.
    apply find_some in H. destruct H as [H _]. apply in_rev in H.
    pose proof (collect_hits_not_below hits (ms * 0.8)) as Hall.
    rewrite Forall_forall in Hall. now apply Hall. }
  split; [now apply Hkept with vector |].
  split; [now apply Hkept with fulltext |].
  eexists. split; [| split].
  - rewrite legacy_hybrid_search_outcome, Hv, Hf. reflexivity.
  - now apply with_key_fuse.
  - intros -> -> -> Es Ef.
    rewrite (with_key_fuse _ _ 0.7 0.3 0.7 k rs rf Hs Ht).
    rewrite Es, Ef. reflexivity.
Qed.

Lemma legacy_hybrid_shared_key_witness :
  let hs := sample_hit "doc" "text" "a" 0.9 in
  let hf := sample_hit "doc" "text" "b" 0.6 in
  let svc := sample_services (Returned [hs]) (Returned [hf]) None
               (Returned []) in
  let rs := result_of_item (item_of_hit hs) in
  exists fused,
    _legacy_hybrid_search svc (lit "q") [] 0.7 0.3 20 0.7 = Returned fused /\
    with_key (result_key rs) fused = [with_score rs 0.81].
Proof.
  intros hs hf svc rs.
  destruct (legacy_hybrid_shared_key svc (lit "q") [] 0.7 0.3 20 0.7
              [hs] [hf] (result_key rs) rs (result_of_item (item_of_hit hf))
              eq_refl eq_refl eq_refl eq_refl)
    as [_ [_ [fused [Hl [_ Hk]]]]].
  exists fused. split; [exact Hl |].
  apply Hk; reflexivity.
Defined.

(** C2 as stated fails in [_legacy_hybrid_search].  A semantic hit and a
    fulltext hit of score 0.7 share their key and both pass the retrievals
    made for [min_score] 0.8, yet the fused list holds no candidate: the
    combined score 0.7 is below 0.8.  And in the setting of the claim
    ([min_score] 0.7, scores 0.9 and 0.5) the fulltext hit is below
    0.7 * 0.8, the fulltext retrieval drops it, the candidate scores
    0.9 * 0.7 alone and the fused list is empty. *)
Lemma legacy_hybrid_shared_key_dropped :
  (let hs := sample_hit "doc" "text" "a" 0.7 in
   let hf := sample_hit "doc" "text" "b" 0.7 in
   let svc := sample_services (Returned [hs]) (Returned [hf]) None
                (Returned []) in
   let rs := result_of_item (item_of_hit hs) in
   let rf := result_of_item (item_of_hit hf) in
   _semantic_search svc (lit "q") [] 20 (0.8 * 0.8) = Returned [rs] /\
   _fulltext_search svc (lit "q") [] 20 (0.8 * 0.8) = Returned [rf] /\
   result_key rs = result_key rf /\
   _legacy_hybrid_search svc (lit "q") [] 0.7 0.3 20 0.8 = Returned [] /\
   _hybrid_search svc (lit "q") [] 0.7 0.3 20 0.8 = Returned [])
  /\
  (let hs := sample_hit "doc" "text" "a" 0.9 in
   let hf := sample_hit "doc" "text" "b" 0.5 in
   let svc := sample_services (Returned [hs]) (Returned [hf]) None
                (Returned []) in
   _semantic_search svc (lit "q") [] 20 (0.7 * 0.8)
   = Returned [result_of_item (item_of_hit hs)] /\
   _fulltext_search svc (lit "q") [] 20 (0.7 * 0.8) = Returned [] /\
   _legacy_hybrid_search svc (lit "q") [] 0.7 0.3 20 0.7 = Returned [] /\
   _hybrid_search svc (lit "q") [] 0.7 0.3 20 0.7 = Returned []).
Proof.
  cbv zeta. repeat split; vm_compute; reflexivity.
Qed.

(** *** The stages of [search] *)

Lemma search_raises (svc : Services) (self : State) (query : pystr)
    (kbs : list pystr) (strategy : string) (sw fw : float) (max_results : Z)
    (ms : float) (rr cl : bool) (e : exn) :
  retrieve svc query kbs (resolve_strategy svc query strategy) sw fw
    max_results ms = Raised e ->
  fst (search svc self query kbs strategy sw fw max_results ms rr cl) = Raised e.
Proof. intros H. unfold search. now rewrite H. Qed.

Lemma search_returns (svc : Services) (self : State) (query : pystr)
    (kbs : list pystr) (strategy : string) (sw fw : float) (max_results : Z)
    (ms : float) (rr cl : bool) (results : list SearchResult) :
  retrieve svc query kbs (resolve_strategy svc query strategy) sw fw
    max_results ms = Returned results ->
  exists reranked clustered infos,
    rerank_stage svc query rr results = Returned reranked /\
    cluster_stage svc cl (clusters self) reranked = Returned (clustered, infos) /\
    length reranked = length results /\
    length clustered = length results /\
    fst (search svc self query kbs strategy sw fw max_results ms rr cl)
    = Returned (slice_to clustered max_results).
Proof.
  intros H.
  destruct (rerank_stage_returns svc query rr results) as [reranked [Hr Hlr]].
  destruct (cluster_stage_returns svc cl (clusters self) reranked)
    as [clustered [infos [Hc Hlc]]].
  exists reranked, clustered, infos.
  repeat split; trivial; [congruence |].
  unfold search. rewrite H, Hr. simpl clusters. now rewrite Hc.
Qed.

(** [search] raises exactly the errors of its retrieval. *)
Lemma search_raises_iff (svc : Services) (self : State) (query : pystr)
    (kbs : list pystr) (strategy : string) (sw fw : float) (max_results : Z)
    (ms : float) (rr cl : bool) (e : exn) :
  fst (search svc self query kbs strategy sw fw max_results ms rr cl) = Raised e
  <-> retrieve svc query kbs (resolve_strategy svc query strategy) sw fw
        max_results ms = Raised e.
Proof.
  split; [| apply search_raises].
  intros H.
  destruct (retrieve svc query kbs (resolve_strategy svc query strategy) sw fw
              max_results ms) as [results | e0] eqn:Hret.
  - destruct (search_returns svc self query kbs strategy sw fw max_results ms
                rr cl results Hret) as [? [? [? [_ [_ [_ [_ Hs]]]]]]].
    rewrite Hs in H. discriminate H.
  - rewrite (search_raises svc self query kbs strategy sw fw max_results ms
               rr cl e0 Hret) in H.
    exact H.
Qed.

Lemma rerank_of_init (logs : list SearchLog)
    (vector fulltext : pystr -> list pystr -> Z -> outcome (list Hit))
    (model : option RerankingService.bge_model)
    (labels : list pystr -> outcome (list Z))
    (query : pystr) (results : list SearchResult) :
  model = None \/
  (exists compute_similarity e,
     model = Some compute_similarity /\
     compute_similarity query (map content results) = Raised e) ->
  _rerank_results (init logs vector fulltext model labels) query results
  = Returned (map (fun r => with_score r 1.0) results).
Proof.
  intros H. apply rerank_results_fallback_keeps_order. simpl.
  unfold RerankingService.rerank.
  destruct H as [-> | [compute_similarity [e [-> H]]]]; [reflexivity |].
  now rewrite H.
Qed.

(** C5, as the code has it.  [search] raises exactly when the retrieval of
    the chosen strategy fails, with the error of the Milvus call that
    failed (for the hybrid strategy: of the vector search, or of the
    fulltext search once the vector search has answered), or the
    [ValueError] of an unsupported strategy.  Reranking and clustering
    never raise.  When the relevance model is not loaded or its call
    raises, [_rerank_results] returns the results in the order it was
    given them, each with its score set to 1.0.  When the encoder or DBSCAN
    raises, or gives too few labels, [_cluster_results] returns the list it
    was given and no cluster summary. *)
Theorem search_error_policy (logs : list SearchLog)
    (vector fulltext : pystr -> list pystr -> Z -> outcome (list Hit))
    (model : option RerankingService.bge_model)
    (labels : list pystr -> outcome (list Z))
    (self : State) (query : pystr)
    (kbs : list pystr) (strategy : string) (sw fw : float) (max_results : Z)
    (ms : float) (rr cl : bool) :
  let svc := init logs vector fulltext model labels in
  let chosen := resolve_strategy svc query strategy in
  let answer :=
    fst (search svc self query kbs strategy sw fw max_results ms rr cl) in
  (forall e,
     answer = Raised e <->
     (chosen = "semantic" /\ vector query kbs (max_results * 2)%Z = Raised e)
     \/
     (chosen = "fulltext" /\ fulltext query kbs (max_results * 2)%Z = Raised e)
     \/
     (chosen = "hybrid" /\
      (vector query kbs (max_results * 2)%Z = Raised e
       \/
       (exists hits, vector query kbs (max_results * 2)%Z = Returned hits)
       /\ fulltext query kbs (max_results * 2)%Z = Raised e))
     \/
     (chosen <> "semantic" /\ chosen <> "fulltext" /\ chosen <> "hybrid" /\
      e = ValueError (lit "不支持的检索策略: " ++ lit chosen)%list)) /\
  (forall results,
     exists reranked, _rerank_results svc query results = Returned reranked) /\
  (forall results,
     model = None \/
     (exists compute_similarity e,
        model = Some compute_similarity /\
        compute_similarity query (map content results) = Raised e) ->
     _rerank_results svc query results
     = Returned (map (fun r => with_score r 1.0) results)) /\
  (forall results,
     exists clustered infos,
       _cluster_results svc results = Returned (clustered, infos)) /\
  (forall results,
     (exists e, labels (map content results) = Raised e) \/
     (exists ls, labels (map content results) = Returned ls
                 /\ (length ls < length results)%nat) ->
     _cluster_results svc results = Returned (results, [])).
Proof.
  cbv zeta. split; [| split; [| split; [| split]]].
  - intros e. rewrite search_raises_iff. apply retrieve_raises.
  - intros results.
    destruct (rerank_results_returns
                (init logs vector fulltext model labels) query results)
      as [reranked [H _]].
    now exists reranked.
  - intros results. apply rerank_of_init.
  - intros results.
    destruct (cluster_results_returns
                (init logs vector fulltext model labels) results)
      as [clustered [infos [H _]]].
    now exists clustered, infos.
  - intros results H. unfold _cluster_results.
    destruct (len results <=? 1)%Z; [reflexivity |].
    simpl dbscan_labels.
    destruct H as [[e H] | [ls [H Hlen]]]; rewrite H; [reflexivity |].
    simpl bind. now rewrite build_cluster_map_short.
Qed.

Lemma search_error_policy_witness :
  let failing : RerankingService.bge_model :=
    fun _ _ => Raised (ServiceError "encode") in
  let results := [sample_result "d1" "one" "a" 0.8;
                  sample_result "d2" "two" "b" 0.9] in
  fst (search (sample_services (Returned []) (Raised (ServiceError "milvus"))
                 None (Returned []))
         sample_state (lit "q") [] "hybrid" 0.7 0.3 10 0.7 true true)
  = Raised (ServiceError "milvus")
  /\
  _rerank_results
    (sample_services (Returned []) (Returned []) (Some failing) (Returned []))
    (lit "q") results
  = Returned [sample_result "d1" "one" "a" 1.0; sample_result "d2" "two" "b" 1.0]
  /\
  _cluster_results
    (sample_services (Returned []) (Returned []) None
       (Raised (ServiceError "encoder")))
    results
  = Returned (results, []).
Proof.
  intros failing results. split; [| split].
  - pose proof (search_error_policy []
                  (fun _ _ _ => Returned [])
                  (fun _ _ _ => Raised (ServiceError "milvus"))
                  None (fun _ => Returned [])
                  sample_state (lit "q") [] "hybrid" 0.7 0.3 10 0.7
                  true true) as H.
    cbv zeta in H. destruct H as [Hraises _].
    apply Hraises. right. right. left. split; [reflexivity |].
    right. split; [now exists [] | reflexivity].
  - pose proof (search_error_policy []
                  (fun _ _ _ => Returned []) (fun _ _ _ => Returned [])
                  (Some failing) (fun _ => Returned [])
                  sample_state (lit "q") [] "hybrid" 0.7 0.3 10 0.7
                  true true) as H.
    cbv zeta in H. destruct H as [_ [_ [Hrerank _]]].
    apply (Hrerank results). right.
    exists failing, (ServiceError "encode"). split; reflexivity.
  - pose proof (search_error_policy []
                  (fun _ _ _ => Returned []) (fun _ _ _ => Returned [])
                  None (fun _ => Raised (ServiceError "encoder"))
                  sample_state (lit "q") [] "hybrid" 0.7 0.3 10 0.7
                  true true) as H.
    cbv zeta in H. destruct H as [_ [_ [_ [_ Hcluster]]]].
    apply (Hcluster results). left.
    exists (ServiceError "encoder"). reflexivity.
Defined.

(** C5 as stated fails: when the call of the relevance model raises, the
    reranking does not return the list it was given.  Two results retrieved
    with the scores 0.9 and 0.8 come out of [_rerank_results], and out of
    [search], with the score 1.0 each. *)
Lemma rerank_failure_rewrites_scores :
  let failing : RerankingService.bge_model :=
    fun _ _ => Raised (ServiceError "encode") in
  let hits := [sample_hit "d1" "one" "a" 0.9; sample_hit "d2" "two" "b" 0.8] in
  let svc := sample_services (Returned hits) (Returned []) (Some failing)
               (Returned []) in
  let results := results_of_hits hits 0.7 in
  retrieve svc (lit "q") [] "semantic" 0.7 0.3 10 0.7 = Returned results /\
  map score results = [0.9; 0.8] /\
  _rerank_results svc (lit "q") results
  = Returned (map (fun r => with_score r 1.0) results) /\
  _rerank_results svc (lit "q") results <> Returned results /\
  fst (search svc sample_state (lit "q") [] "semantic" 0.7 0.3 10 0.7
         true false)
  = Returned (map (fun r => with_score r 1.0) results).
Proof.
  cbv zeta. repeat split; try (vm_compute; reflexivity).
  intros H.
  apply (f_equal (fun o => match o with
                           | Returned (r :: _) => score r <? 1.0
                           | _ => false
                           end)) in H.
  vm_compute in H. discriminate H.
Qed.

(** C7.  Whatever the chosen retrieval keeps of the [max_results * 2] hits
    it asks Milvus for (every hit not below [min_score], or the whole fused
    list) goes to the reranking and clustering stages, which each return as
    many results as they receive; [search] returns the slice
    [[:max_results]] of what the last stage produced, and returns only in
    this way.  For a non-negative [max_results] the slice is the first
    [max_results] results, so at most [max_results] of them. *)
Theorem search_truncates_last (svc : Services) (self : State) (query : pystr)
    (kbs : list pystr) (strategy : string) (sw fw : float) (max_results : Z)
    (ms : float) (rr cl : bool) :
  let chosen := resolve_strategy svc query strategy in
  let answer :=
    fst (search svc self query kbs strategy sw fw max_results ms rr cl) in
  (forall retrieved,
     retrieved_in_full svc query kbs chosen sw fw max_results ms retrieved ->
     exists reranked clustered infos,
       rerank_stage svc query rr retrieved = Returned reranked /\
       cluster_stage svc cl (clusters self) reranked
       = Returned (clustered, infos) /\
       length reranked = length retrieved /\
       length clustered = length retrieved /\
       answer = Returned (slice_to clustered max_results) /\
       ((0 <= max_results)%Z ->
        slice_to clustered max_results
        = firstn (Z.to_nat max_results) clustered /\
        (len (slice_to clustered max_results) <= max_results)%Z)) /\
  (forall final,
     answer = Returned final ->
     exists retrieved,
       retrieved_in_full svc query kbs chosen sw fw max_results ms retrieved).
Proof.
  cbv zeta. split.
  - intros retrieved H. apply retrieve_returns_in_full in H.
    destruct (search_returns svc self query kbs strategy sw fw max_results ms
                rr cl retrieved H)
      as [reranked [clustered [infos [Hr [Hc [Hlr [Hlc Hs]]]]]]].
    exists reranked, clustered, infos. repeat split; trivial.
    + unfold slice_to.
      now replace (max_results <? 0)%Z with false
        by (symmetry; apply Z.ltb_ge; lia).
    + unfold slice_to.
      replace (max_results <? 0)%Z with false
        by (symmetry; apply Z.ltb_ge; lia).
      unfold len. rewrite length_firstn. lia.
  - intros final H.
    destruct (retrieve svc query kbs (resolve_strategy svc query strategy)
                sw fw max_results ms) as [retrieved | e] eqn:Hret.
    + exists retrieved. now apply retrieve_returns_in_full.
    + rewrite (search_raises svc self query kbs strategy sw fw max_results ms
                 rr cl e Hret) in H.
      discriminate H.
Qed.

(** A hybrid request for 2 results: three candidates come out of the
    fusion, all three are reranked and clustered, and the list is cut to 2
    at the end. *)
Lemma search_truncates_last_witness :
  let hits := [sample_hit "d1" "one" "a" 0.9; sample_hit "d2" "two" "b" 0.8;
               sample_hit "d3" "three" "c" 0.75] in
  let svc := sample_services (Returned hits) (Returned hits) None
               (Returned [1; 0; 1]%Z) in
  let retrieved :=
    fuse (results_of_hits hits (0.7 * 0.8)) (results_of_hits hits (0.7 * 0.8))
      0.7 0.3 0.7 in
  length retrieved = 3%nat /\
  exists reranked clustered infos,
    rerank_stage svc (lit "q") true retrieved = Returned reranked /\
    cluster_stage svc true [] reranked = Returned (clustered, infos) /\
    length reranked = 3%nat /\
    length clustered = 3%nat /\
    fst (search svc sample_state (lit "q") [] "hybrid" 0.7 0.3 2 0.7 true true)
    = Returned (firstn 2 clustered) /\
    (len (firstn 2 clustered) <= 2)%Z.
Proof.
  intros hits svc retrieved.
  assert (Hlen : length retrieved = 3%nat) by (vm_compute; reflexivity).
  split; [exact Hlen |].
  pose proof (search_truncates_last svc sample_state (lit "q") [] "hybrid"
                0.7 0.3 2 0.7 true true) as H.
  cbv zeta in H. destruct H as [H _].
  destruct (H retrieved) as [reranked [clustered [infos
              [Hr [Hc [Hlr [Hlc [Hs Hb]]]]]]]].
  { right. right. split; [reflexivity |].
    exists hits, hits. repeat split; reflexivity. }
  exists reranked, clustered, infos.
  destruct Hb as [Hb1 Hb2]; [lia |].
  repeat split; try assumption; congruence.
Defined.

(** C10: on the fallback path both retrievals are made with the threshold
    [min_score * 0.8]: every hit whose own score is not below that
    threshold is among the results handed to the fusion, and [min_score]
    itself bounds only the combined score of what the fusion returns.  The
    fallback is what [_hybrid_search] does: its native search raises on
    every call. *)
Theorem legacy_hybrid_relaxed_threshold (svc : Services) (query : pystr)
    (kbs : list pystr) (sw fw : float) (limit : Z) (ms : float)
    (vector fulltext : list Hit) :
  vector_hits svc query kbs limit = Returned vector ->
  fulltext_hits svc query kbs limit = Returned fulltext ->
  let passing hits := map result_of_item (collect_hits hits (ms * 0.8)) in
  _semantic_search svc query kbs limit (ms * 0.8) = Returned (passing vector) /\
  _fulltext_search svc query kbs limit (ms * 0.8)
  = Returned (passing fulltext) /\
  (forall hit, In hit vector \/ In hit fulltext ->
     (hit_score hit <? ms * 0.8) = false ->
     In (result_of_item (item_of_hit hit))
        (passing vector ++ passing fulltext)) /\
  _legacy_hybrid_search svc query kbs sw fw limit ms
  = Returned (fuse (passing vector) (passing fulltext) sw fw ms) /\
  Forall (fun r => (ms <=? score r) = true)
    (fuse (passing vector) (passing fulltext) sw fw ms) /\
  _hybrid_search svc query kbs sw fw limit ms
  = _legacy_hybrid_search svc query kbs sw fw limit ms.
Proof.
  intros Hv Hf passing.
  assert (Hs : _semantic_search svc query kbs limit (ms * 0.8)
               = Returned (passing vector)).
  { unfold _semantic_search, VectorService.search. now rewrite Hv. }
  assert (Ht : _fulltext_search svc query kbs limit (ms * 0.8)
               = Returned (passing fulltext)).
  { unfold _fulltext_search, FulltextService.search. now rewrite Hf. }
  assert (Hin : forall hits hit,
             In hit hits -> (hit_score hit <? ms * 0.8) = false ->
             In (result_of_item (item_of_hit hit)) (passing hits)).
  { intros hits hit Hh Hsc. unfold passing, collect_hits.
    apply in_map, in_map, filter_In. split; [exact Hh |]. now rewrite Hsc. }
  split; [exact Hs |]. split; [exact Ht |]. split; [| split; [| split]].
  - intros hit [Hh | Hh] Hsc; apply in_or_app; [left | right]; now apply Hin.
  - unfold _legacy_hybrid_search. now rewrite Hs, Ht.
  - apply fuse_scores_reach_min.
  - apply hybrid_search_falls_back.
Qed.

(** A semantic hit of score 0.6, below the [min_score] 0.7 of the request
    and above 0.7 * 0.8, reaches the fused list, where its combined score
    with a fulltext hit of score 1.0 is 0.72. *)
Lemma legacy_hybrid_relaxed_threshold_witness :
  let svc := sample_services (Returned [sample_hit "d1" "one" "a" 0.6])
               (Returned [sample_hit "d1" "one" "a" 1.0]) None (Returned []) in
  _hybrid_search svc (lit "q") [] 0.7 0.3 20 0.7
  = Returned
      [with_score (result_of_item (item_of_hit (sample_hit "d1" "one" "a" 0.6)))
         0.72].
Proof.
  intros svc.
  pose proof (legacy_hybrid_relaxed_threshold svc (lit "q") [] 0.7 0.3 20 0.7
                [sample_hit "d1" "one" "a" 0.6]
                [sample_hit "d1" "one" "a" 1.0] eq_refl eq_refl) as H.
  cbv zeta in H. destruct H as [_ [_ [_ [Hlegacy [_ Hfallback]]]]].
  rewrite Hfallback, Hlegacy.
  reflexivity.
Defined.

End SearchFacts.

(** * Further properties *)

(** ** Strategy selection, beyond the claims *)

Section StrategyMore.

Local Open Scope string_scope.
Local Open Scope float_scope.

(** X1: Whatever the scores, NaN included, the selection names one of the three
    strategies: an automatic choice never reaches the "unsupported
    strategy" error of [search]. *)
Theorem auto_strategy_supported (svc : Services) (query : pystr) :
  In (resolve_strategy svc query "auto") strategy_names.
Proof.
  unfold resolve_strategy. simpl String.eqb. cbv iota.
  unfold _determine_best_strategy, _select_strategy_by_scores, final_scores.
  generalize (_analyze_query_features query).
  generalize (_analyze_historical_performance (search_logs svc) query).
  intros h f.
  set (a := get f "semantic" 0 * 0.7 + get h "semantic" 0 * 0.3).
  set (b := get f "fulltext" 0 * 0.7 + get h "fulltext" 0 * 0.3).
  set (c := get f "hybrid" 0 * 0.7 + get h "hybrid" 0 * 0.3).
  unfold max_by, max_from. simpl fold_left. simpl snd.
  repeat (match goal with
          | |- context [if PrimFloat.ltb ?x ?y then _ else _] =>
            destruct (PrimFloat.ltb x y)
          end; simpl);
    auto.
Qed.

Ltac split_ifs :=
  repeat (match goal with
          | |- context [if ?c then _ else _] =>
            match type of c with bool => destruct c end
          end; cbv iota).

Lemma feature_scores_checked (query : pystr) :
  scores_in_range (_analyze_query_features query) = true.
Proof.
  cbv beta zeta delta [_analyze_query_features]. split_ifs; reflexivity.
Qed.

(** X2: Every feature score lies between 0 and 2, and the hybrid score never
    goes below its base of 0.5. *)
Theorem feature_scores_bounded (query : pystr) :
  (forall s, In s strategy_names ->
     (0 <=? get (_analyze_query_features query) s 0) = true /\
     (get (_analyze_query_features query) s 0 <=? 2) = true) /\
  (0.5 <=? get (_analyze_query_features query) "hybrid" 0) = true.
Proof.
  pose proof (feature_scores_checked query) as H.
  unfold scores_in_range in H.
  repeat (apply andb_prop in H; destruct H as [H ?]).
  split; [| assumption].
  intros s [<- | [<- | [<- | []]]]; split; assumption.
Qed.

(** X3: A query with a quote character has a fulltext feature score of at least
    0.5, whatever else it contains. *)
Theorem quoted_query_fulltext_bonus (query : pystr) :
  any_in quote_chars query = true ->
  (0.5 <=? get (_analyze_query_features query) "fulltext" 0) = true.
Proof.
  intros H. cbv beta zeta delta [_analyze_query_features]. rewrite H.
  split_ifs; reflexivity.
Qed.

Lemma quoted_query_fulltext_bonus_witness :
  (0.5 <=? get (_analyze_query_features (lit "'kb' vs 'index'")) "fulltext" 0)
  = true.
Proof.
  apply (quoted_query_fulltext_bonus (lit "'kb' vs 'index'")).
  vm_compute. reflexivity.
Defined.

Lemma firstn_incl {A : Type} (n : nat) (l : list A) (x : A) :
  In x (firstn n l) -> In x l.
Proof.
  revert l. induction n as [|n IH]; intros [|y l] H; simpl in *;
    try contradiction.
  destruct H as [-> | H]; auto.
Qed.

Lemma flat_map_length_le {A B : Type} (f : A -> list B) (l : list A) :
  (forall x, length (f x) <= 1)%nat ->
  (length (flat_map f l) <= length l)%nat.
Proof.
  intros H. induction l as [|x l IH]; simpl; [lia |].
  rewrite length_app. specialize (H x). lia.
Qed.

(** X4: [_find_similar_queries] returns at most [limit] logs and at most 100,
    all of them among the last 100 logs, each with a token overlap with the
    query above 0.3. *)
Theorem similar_queries_bounded (logs : list SearchLog) (query : pystr)
    (limit : Z) :
  (0 <= limit)%Z ->
  (len (_find_similar_queries logs query limit) <= limit)%Z /\
  (len (_find_similar_queries logs query limit) <= 100)%Z /\
  forall log, In log (_find_similar_queries logs query limit) ->
    In log (slice_last 100 logs) /\
    (0.3 <? keyword_overlap (py_set (py_split query))
              (py_set (py_split (log_query log)))) = true.
Proof.
  intros Hlimit. unfold _find_similar_queries, slice_to, len.
  replace (limit <? 0)%Z with false by (symmetry; apply Z.ltb_ge; lia).
  set (candidates := flat_map _ (slice_last 100 logs)).
  assert (Hc : (length candidates <= 100)%nat).
  { apply Nat.le_trans with (length (slice_last 100 logs)).
    - apply flat_map_length_le. intros log.
      destruct (py_set (py_split (log_query log))); simpl; [lia |].
      destruct (0.3 <? _); simpl; lia.
    - unfold slice_last. rewrite length_skipn. lia. }
  rewrite length_map, length_firstn, sort_desc_length.
  split; [lia |]. split; [lia |].
  intros log Hlog. apply in_map_iff in Hlog.
  destruct Hlog as [[overlap log'] [Heq Hin]]. simpl in Heq. subst log'.
  apply firstn_incl in Hin. apply (proj1 (sort_desc_In _ _ _ _)) in Hin.
  apply in_flat_map in Hin. destruct Hin as [log' [Hrecent Hin]].
  cbv beta zeta in Hin.
  destruct (py_set (py_split (log_query log'))) eqn:Ek; [contradiction |].
  destruct (0.3 <? keyword_overlap (py_set (py_split query)) (p :: l)) eqn:Eo;
    [| contradiction].
  destruct Hin as [[= <- <-] | []].
  split; [exact Hrecent |]. now rewrite Ek.
Qed.

Lemma similar_queries_bounded_witness :
  (len (_find_similar_queries
          [{| log_query := lit "index rebuild"; log_strategy := "semantic";
              log_response_time := 0.5; log_result_count := 3 |}]
          (lit "index rebuild") 5) <= 5)%Z.
Proof.
  apply (similar_queries_bounded
           [{| log_query := lit "index rebuild"; log_strategy := "semantic";
               log_response_time := 0.5; log_result_count := 3 |}]
           (lit "index rebuild") 5).
  lia.
Defined.

Lemma zero_quotient_not_above (y : float) : (0.3 <? 0 / y) = false.
Proof.
  rewrite ltb_spec, div_spec.
  change (Prim2SF 0) with (S754_zero false).
  set (x := Prim2SF 0.3). vm_compute in x. subst x.
  destruct (Prim2SF y) as [s | s | | s m e]; reflexivity.
Qed.

Lemma blank_query_no_similar (logs : list SearchLog) (query : pystr)
    (limit : Z) :
  py_split query = [] -> _find_similar_queries logs query limit = [].
Proof.
  intros H. unfold _find_similar_queries. rewrite H. simpl py_set.
  replace (flat_map _ (slice_last 100 logs)) with (@nil (float * SearchLog)).
  - unfold slice_to. simpl. now destruct (limit <? 0)%Z; rewrite firstn_nil.
  - symmetry. induction (slice_last 100 logs) as [|log rest IH]; [reflexivity |].
    simpl. rewrite IH.
    destruct (py_set (py_split (log_query log))); [reflexivity |].
    unfold keyword_overlap. simpl List.filter. simpl length.
    change (PyFloat.of_nat 0) with 0.
    now rewrite zero_quotient_not_above.
Qed.

(** X5: A query with no token (empty, or white space only) finds no similar
    log: whatever the log holds, its history scores are all zero and its
    strategy is the one chosen with an empty log. *)
Theorem blank_query_ignores_history (logs : list SearchLog) (query : pystr) :
  py_split query = [] ->
  _analyze_historical_performance logs query
  = [("semantic", 0.0); ("fulltext", 0.0); ("hybrid", 0.0)] /\
  _determine_best_strategy logs query = _determine_best_strategy [] query.
Proof.
  intros H.
  assert (Hz : forall l, _analyze_historical_performance l query
                         = [("semantic", 0.0); ("fulltext", 0.0);
                            ("hybrid", 0.0)]).
  { intros l. unfold _analyze_historical_performance.
    now rewrite blank_query_no_similar. }
  split; [apply Hz |].
  unfold _determine_best_strategy. now rewrite !Hz.
Qed.

Lemma blank_query_ignores_history_witness :
  _determine_best_strategy
    [{| log_query := lit "index rebuild"; log_strategy := "semantic";
        log_response_time := 0.5; log_result_count := 3 |}]
    (lit "  ")
  = _determine_best_strategy [] (lit "  ").
Proof.
  apply (blank_query_ignores_history
           [{| log_query := lit "index rebuild"; log_strategy := "semantic";
               log_response_time := 0.5; log_result_count := 3 |}]
           (lit "  ")).
  reflexivity.
Defined.

End StrategyMore.

(** ** Fusion, beyond the claims *)

Section FusionMore.

Local Open Scope float_scope.

Lemma with_key_fuse_lookup (sem ft : list SearchResult) (sw fw ms : float)
    (k : pystr) :
  with_key k (fuse sem ft sw fw ms)
  = match lookup str_eqb (merge sem ft) k with
    | Some c =>
      if ms <=? combined_score sw fw c
      then [with_score (result c) (combined_score sw fw c)] else []
    | None => []
    end.
Proof.
  pose proof (with_key_combine (merge sem ft) sw fw ms k
                (well_keyed_merge sem ft)) as Hc.
  assert (Hp : Permutation
                 (with_key k (combine (merge sem ft) sw fw ms))
                 (with_key k (fuse sem ft sw fw ms))).
  { unfold with_key, fuse. apply filter_perm, Permutation_sym, sort_desc_perm. }
  rewrite Hc in Hp.
  destruct (lookup str_eqb (merge sem ft) k) as [c |].
  - destruct (ms <=? combined_score sw fw c).
    + now apply Permutation_length_1_inv.
    + now apply Permutation_nil.
  - now apply Permutation_nil.
Qed.

(** A key that the map does not hold yet gets, from the fulltext loop, the
    first fulltext result carrying it and the score of the last one. *)
Lemma lookup_after_fulltext_absent (k : pystr) (l : list SearchResult) :
  forall m,
    lookup str_eqb m k = None ->
    lookup str_eqb (fold_left add_fulltext l m) k
    = match first_with_key k l, last_with_key k l with
      | Some r1, Some rl =>
        Some {| result := r1; semantic_score := 0; fulltext_score := score rl |}
      | _, _ => None
      end.
Proof.
  induction l as [|r l IH]; intros m Hm; [exact Hm |].
  simpl fold_left. unfold first_with_key, last_with_key.
  simpl find. simpl rev. rewrite find_app_last.
  fold (last_with_key k l). fold (first_with_key k l).
  destruct (str_eqb (result_key r) k) eqn:E.
  - pose proof E as E'. apply str_eqb_eq in E'.
    assert (Hc : lookup str_eqb (add_fulltext m r) k
                 = Some {| result := r; semantic_score := 0;
                           fulltext_score := score r |}).
    { unfold add_fulltext. rewrite E', Hm.
      now rewrite lookup_assign_eq by exact str_eqb_eq. }
    rewrite (lookup_after_fulltext k l _ _ Hc). simpl.
    now destruct (last_with_key k l).
  - assert (Hc : lookup str_eqb (add_fulltext m r) k = None).
    { unfold add_fulltext.
      assert (Hne : result_key r <> k)
        by (intros H; apply str_eqb_eq in H; congruence).
      destruct (lookup str_eqb m (result_key r));
        rewrite lookup_assign_neq; trivial; exact str_eqb_eq. }
    rewrite (IH _ Hc).
    destruct (first_with_key k l); [| reflexivity].
    now destruct (last_with_key k l).
Qed.

(** X6: A passage found by the semantic retrieval only is rescored with a
    fulltext component of 0, and kept if that reaches [min_score]. *)
Theorem fuse_semantic_only (sem ft : list SearchResult) (sw fw ms : float)
    (k : pystr) (rs : SearchResult) :
  last_with_key k sem = Some rs ->
  last_with_key k ft = None ->
  with_key k (fuse sem ft sw fw ms)
  = if ms <=? score rs * sw + 0 * fw
    then [with_score rs (score rs * sw + 0 * fw)] else [].
Proof.
  intros Hs Hf. rewrite with_key_fuse_lookup. unfold merge.
  rewrite (lookup_after_fulltext k ft _
             {| result := rs; semantic_score := score rs;
                fulltext_score := 0 |})
    by now rewrite lookup_after_semantic, Hs.
  rewrite Hf. reflexivity.
Qed.

Lemma fuse_semantic_only_witness :
  let rs := sample_result "doc" "text" "a" 0.9 in
  with_key (result_key rs)
    (fuse [rs] [sample_result "other" "text" "b" 0.6] 1 1 0.7)
  = [with_score rs 0.9].
Proof.
  intros rs.
  apply (fuse_semantic_only [rs] [sample_result "other" "text" "b" 0.6]
           1 1 0.7 (result_key rs) rs); reflexivity.
Defined.

(** X7: A passage found by the fulltext retrieval only is rescored with a
    semantic component of 0; when several fulltext results carry its key,
    the candidate is the first of them and its fulltext component is the
    score of the last. *)
Theorem fuse_fulltext_only (sem ft : list SearchResult) (sw fw ms : float)
    (k : pystr) (r1 rl : SearchResult) :
  last_with_key k sem = None ->
  first_with_key k ft = Some r1 ->
  last_with_key k ft = Some rl ->
  with_key k (fuse sem ft sw fw ms)
  = if ms <=? 0 * sw + score rl * fw
    then [with_score r1 (0 * sw + score rl * fw)] else [].
Proof.
  intros Hs H1 Hl. rewrite with_key_fuse_lookup. unfold merge.
  rewrite lookup_after_fulltext_absent
    by now rewrite lookup_after_semantic, Hs.
  rewrite H1, Hl. reflexivity.
Qed.

Lemma fuse_fulltext_only_witness :
  let r1 := sample_result "doc" "text" "first" 0.6 in
  let rl := sample_result "doc" "text" "last" 0.8 in
  with_key (result_key r1) (fuse [] [r1; rl] 1 1 0.7) = [with_score r1 0.8].
Proof.
  intros r1 rl.
  apply (fuse_fulltext_only [] [r1; rl] 1 1 0.7 (result_key r1) r1 rl);
    reflexivity.
Defined.

Lemma combine_keys_NoDup (m : result_map) (sw fw ms : float) :
  well_keyed m -> NoDup (map result_key (combine m sw fw ms)).
Proof.
  induction m as [|[k c] m IH]; intros [Hnd Hk]; [constructor |].
  inversion Hnd as [|? ? Hnotin Hnd']; subst.
  assert (Hm : well_keyed m).
  { split; [exact Hnd' |]. intros k' c' H. apply Hk. now right. }
  unfold combine. simpl flat_map. simpl snd. fold (combine m sw fw ms).
  destruct (ms <=? combined_score sw fw c); [| now apply IH].
  cbn [app map]. constructor; [| now apply IH].
  intros Hin. apply in_map_iff in Hin. destruct Hin as [r [Hr Hin]].
  apply In_combine in Hin. destruct Hin as [k' [c' [Hin' [_ ->]]]].
  rewrite !result_key_with_score in Hr.
  rewrite (Hk k' c' (or_intror Hin')) in Hr.
  rewrite (Hk k c (or_introl eq_refl)) in Hr. subst k'.
  apply Hnotin. change k with (fst (k, c')). now apply in_map.
Qed.

(** X8: No two results of the fused list carry the same candidate key. *)
Theorem fuse_keys_distinct (sem ft : list SearchResult) (sw fw ms : float) :
  NoDup (map result_key (fuse sem ft sw fw ms)).
Proof.
  unfold fuse.
  apply (Permutation_NoDup
           (Permutation_map result_key
              (Permutation_sym (sort_desc_perm _ score _)))).
  apply combine_keys_NoDup, well_keyed_merge.
Qed.

Lemma assign_length {K V : Type} (eqb : K -> K -> bool) (d : dict K V)
    (k : K) (v : V) :
  (length (assign eqb d k v) <= S (length d))%nat.
Proof.
  induction d as [|[k' v'] d IH]; simpl; [lia |].
  destruct (eqb k' k); simpl; lia.
Qed.

Lemma sourced_assign (pool : list SearchResult) (m : result_map) (k : pystr)
    (c : Candidate) :
  sourced pool m -> In (result c) pool -> sourced pool (assign str_eqb m k c).
Proof.
  intros Hm Hc k' c' Hin. apply (In_assign _ _ _ str_eqb_eq) in Hin.
  destruct Hin as [[_ ->] | Hin]; [exact Hc | now apply (Hm k')].
Qed.

Lemma merge_step_semantic (pool : list SearchResult) (m : result_map)
    (r : SearchResult) :
  In r pool -> sourced pool m ->
  sourced pool (add_semantic m r) /\
  (length (add_semantic m r) <= S (length m))%nat.
Proof.
  intros Hr Hm. split; [| apply assign_length].
  now apply sourced_assign.
Qed.

Lemma merge_step_fulltext (pool : list SearchResult) (m : result_map)
    (r : SearchResult) :
  In r pool -> sourced pool m ->
  sourced pool (add_fulltext m r) /\
  (length (add_fulltext m r) <= S (length m))%nat.
Proof.
  intros Hr Hm. unfold add_fulltext.
  destruct (lookup str_eqb m (result_key r)) as [data |] eqn:E;
    (split; [| apply assign_length]); apply sourced_assign; trivial.
  simpl. apply (Hm (result_key r)).
  now apply lookup_Some_In with (eqb := str_eqb) (eqb_eq := str_eqb_eq).
Qed.

Lemma merge_fold (pool : list SearchResult)
    (f : result_map -> SearchResult -> result_map) (l : list SearchResult) :
  (forall m r, In r pool -> sourced pool m ->
     sourced pool (f m r) /\ (length (f m r) <= S (length m))%nat) ->
  (forall r, In r l -> In r pool) ->
  forall m, sourced pool m ->
    sourced pool (fold_left f l m) /\
    (length (fold_left f l m) <= length m + length l)%nat.
Proof.
  intros Hf. induction l as [|r l IH]; intros Hl m Hm; simpl.
  - split; [exact Hm | lia].
  - destruct (Hf m r (Hl r (or_introl eq_refl)) Hm) as [Hs Hlen].
    destruct (IH (fun x Hx => Hl x (or_intror Hx)) _ Hs) as [Hs' Hlen'].
    split; [exact Hs' | lia].
Qed.

Lemma merge_sourced (sem ft : list SearchResult) :
  sourced (sem ++ ft) (merge sem ft) /\
  (length (merge sem ft) <= length sem + length ft)%nat.
Proof.
  unfold merge.
  destruct (merge_fold (sem ++ ft) add_semantic sem
              (merge_step_semantic (sem ++ ft))
              (fun r Hr => in_or_app _ _ _ (or_introl Hr)) [])
    as [Hs Hlen]; [intros k c [] |].
  destruct (merge_fold (sem ++ ft) add_fulltext ft
              (merge_step_fulltext (sem ++ ft))
              (fun r Hr => in_or_app _ _ _ (or_intror Hr)) _ Hs)
    as [Hs' Hlen'].
  split; [exact Hs' |]. simpl in Hlen. lia.
Qed.

Lemma combine_length (m : result_map) (sw fw ms : float) :
  (length (combine m sw fw ms) <= length m)%nat.
Proof.
  unfold combine. apply flat_map_length_le. intros [k c]. simpl.
  destruct (ms <=? combined_score sw fw c); simpl; lia.
Qed.

(** X9: The fusion invents nothing: every fused result is one of the retrieved
    results with a new score, and there are no more of them than were
    retrieved. *)
Theorem fuse_from_inputs (sem ft : list SearchResult) (sw fw ms : float) :
  (forall r, In r (fuse sem ft sw fw ms) ->
     exists r0, In r0 (sem ++ ft) /\ r = with_score r0 (score r)) /\
  (length (fuse sem ft sw fw ms) <= length sem + length ft)%nat.
Proof.
  destruct (merge_sourced sem ft) as [Hs Hlen]. split.
  - intros r Hr. unfold fuse in Hr.
    apply (proj1 (sort_desc_In _ _ _ _)) in Hr. apply In_combine in Hr.
    destruct Hr as [k [c [Hin [_ ->]]]].
    exists (result c). split; [now apply (Hs k) | reflexivity].
  - unfold fuse. rewrite sort_desc_length.
    pose proof (combine_length (merge sem ft) sw fw ms). lia.
Qed.

End FusionMore.

(** ** Retrieval, beyond the claims *)

Section RetrievalMore.

Local Open Scope float_scope.

(** X10: The native search raises on every call (its body names a
    [Collection] that the module does not import), so [_hybrid_search] is
    the legacy search.  It raises exactly when the vector search raises, or
    answers and the fulltext search raises, and then with that error; it
    returns exactly the fusion of what the two retrievals keep of the hits
    at the threshold [min_score * 0.8]. *)
Theorem hybrid_search_outcome (svc : Services) (query : pystr)
    (kbs : list pystr) (sw fw : float) (limit : Z) (ms : float) :
  _hybrid_search svc query kbs sw fw limit ms
  = _legacy_hybrid_search svc query kbs sw fw limit ms /\
  (forall e,
     _hybrid_search svc query kbs sw fw limit ms = Raised e <->
     vector_hits svc query kbs limit = Raised e \/
     (exists hits, vector_hits svc query kbs limit = Returned hits) /\
     fulltext_hits svc query kbs limit = Raised e) /\
  (forall fused,
     _hybrid_search svc query kbs sw fw limit ms = Returned fused <->
     exists vector fulltext,
       vector_hits svc query kbs limit = Returned vector /\
       fulltext_hits svc query kbs limit = Returned fulltext /\
       fused = fuse (results_of_hits vector (ms * 0.8))
                 (results_of_hits fulltext (ms * 0.8)) sw fw ms).
Proof.
  split; [apply hybrid_search_falls_back |].
  rewrite hybrid_search_falls_back, legacy_hybrid_search_outcome.
  destruct (vector_hits svc query kbs limit) as [vector | e0].
  - destruct (fulltext_hits svc query kbs limit) as [fulltext | e1]; split.
    + intros e. split; [discriminate |].
      intros [H | [_ H]]; discriminate H.
    + intros fused. split.
      * intros [= <-]. now exists vector, fulltext.
      * intros [v [f [[= <-] [[= <-] ->]]]]. reflexivity.
    + intros e. split.
      * intros [= <-]. right. split; [now exists vector | reflexivity].
      * intros [H | [_ H]]; [discriminate H | congruence].
    + intros fused. split; [discriminate |].
      intros [v [f [_ [H _]]]]. discriminate H.
  - split.
    + intros e. split.
      * intros H. left. congruence.
      * intros [H | [[hits H] _]]; [congruence | discriminate H].
    + intros fused. split; [discriminate |].
      intros [v [f [H _]]]. discriminate H.
Qed.

(** The vector search answers and the fulltext search fails: the hybrid
    search raises the error of the fulltext search. *)
Lemma hybrid_search_outcome_witness :
  _hybrid_search
    (sample_services (Returned [sample_hit "d1" "one" "a" 0.9])
       (Raised (ServiceError "bm25")) None (Returned []))
    (lit "q") [] 0.7 0.3 20 0.7
  = Raised (ServiceError "bm25").
Proof.
  apply (hybrid_search_outcome
           (sample_services (Returned [sample_hit "d1" "one" "a" 0.9])
              (Raised (ServiceError "bm25")) None (Returned []))
           (lit "q") [] 0.7 0.3 20 0.7).
  right. split; [| reflexivity].
  now exists [sample_hit "d1" "one" "a" 0.9].
Defined.

End RetrievalMore.

(** ** Clustering, beyond the claims *)

Section ClusterMore.

Local Open Scope Z_scope.

Lemma flat_map_perm_ext {A B : Type} (f g : A -> list B) (l : list A) :
  (forall x, Permutation (f x) (g x)) ->
  Permutation (flat_map f l) (flat_map g l).
Proof.
  intros H. induction l as [|x l IH]; simpl; [apply perm_nil |].
  now apply Permutation_app.
Qed.

Lemma flat_map_ext_In {A B : Type} (f g : A -> list B) (l : list A) :
  (forall x, In x l -> f x = g x) -> flat_map f l = flat_map g l.
Proof.
  intros H. induction l as [|x l IH]; simpl; [reflexivity |].
  rewrite (H x) by now left.
  rewrite IH; [reflexivity |]. intros y Hy. apply H. now right.
Qed.

Lemma members_concat (m : cluster_map) :
  NoDup (keys m) -> flat_map (members_of m) (keys m) = concat (map snd m).
Proof.
  induction m as [|[k v] m IH]; intros Hnd; [reflexivity |].
  inversion Hnd as [|? ? Hnotin Hnd']; subst.
  simpl. f_equal.
  - unfold members_of. simpl. now rewrite Z.eqb_refl.
  - rewrite <- (IH Hnd'). apply flat_map_ext_In.
    intros c Hc. unfold members_of. simpl.
    destruct (k =? c) eqn:E; [| reflexivity].
    apply Z.eqb_eq in E. subst k. contradiction.
Qed.

Lemma reorganize_perm (m : cluster_map) :
  NoDup (keys m) -> Permutation (reorganize m) (concat (map snd m)).
Proof.
  intros Hnd. rewrite <- (members_concat m Hnd). unfold reorganize.
  apply Permutation_trans
    with (flat_map (members_of m) (sorted_asc (keys m))).
  - apply flat_map_perm_ext. intros c. apply sort_desc_perm.
  - apply Permutation_flat_map, sorted_asc_perm.
Qed.

Lemma add_to_cluster_perm (m : cluster_map) (c : Z) (r : SearchResult) :
  Permutation (concat (map snd (add_to_cluster m c r)))
    (r :: concat (map snd m)).
Proof.
  induction m as [|[k v] m IH]; [apply Permutation_refl |].
  rewrite add_to_cluster_cons. destruct (k =? c); simpl.
  - rewrite <- app_assoc. simpl. apply Permutation_sym, Permutation_middle.
  - apply Permutation_trans with (v ++ r :: concat (map snd m))%list.
    + now apply Permutation_app_head.
    + apply Permutation_sym, Permutation_middle.
Qed.

Lemma build_cluster_map_perm (results : list SearchResult) :
  forall labels m0 m,
    build_cluster_map results labels m0 = Returned m ->
    Permutation (concat (map snd m)) (concat (map snd m0) ++ results).
Proof.
  induction results as [|r results IH]; intros labels m0 m H.
  - injection H as <-. rewrite app_nil_r. apply Permutation_refl.
  - destruct labels as [|l labels]; [discriminate |].
    simpl in H. apply IH in H.
    apply (Permutation_trans H).
    apply Permutation_trans with ((r :: concat (map snd m0)) ++ results)%list.
    + apply Permutation_app_tail, add_to_cluster_perm.
    + simpl. apply Permutation_middle.
Qed.

Lemma drop_cluster_name_clusters (m : cluster_map) :
  map drop_cluster (concat (map snd (name_clusters m)))
  = map drop_cluster (concat (map snd m)).
Proof.
  induction m as [|[k v] m IH]; [reflexivity |].
  simpl. rewrite !map_app, IH, map_map. reflexivity.
Qed.

Lemma cluster_results_perm (svc : Services) (results : list SearchResult) :
  exists clustered infos,
    _cluster_results svc results = Returned (clustered, infos) /\
    Permutation (map drop_cluster clustered) (map drop_cluster results).
Proof.
  unfold _cluster_results.
  destruct (len results <=? 1); [simpl; eauto |].
  destruct (dbscan_labels svc (map content results)) as [labels | e];
    [| simpl; eauto].
  simpl bind.
  destruct (build_cluster_map results labels []) as [m | e] eqn:Hb;
    [| simpl; eauto].
  simpl. eexists. eexists. split; [reflexivity |].
  pose proof (population_build results labels [] m Hb) as [_ Hnd].
  apply Permutation_trans
    with (map drop_cluster (concat (map snd (name_clusters m)))).
  - apply Permutation_map, reorganize_perm.
    rewrite keys_name_clusters. apply Hnd. constructor.
  - rewrite drop_cluster_name_clusters.
    apply Permutation_map. apply (build_cluster_map_perm _ _ _ _ Hb).
Qed.

(** X12: Clustering only reorders and labels: whether it completes or fails,
    [_cluster_results] returns every result it was given exactly once, with
    nothing but the cluster field changed (scores included). *)
Theorem cluster_results_keeps_results (svc : Services)
    (results : list SearchResult) :
  exists clustered infos,
    _cluster_results svc results = Returned (clustered, infos) /\
    Permutation (map drop_cluster clustered) (map drop_cluster results).
Proof. apply cluster_results_perm. Qed.

Lemma keys_add_first_seen (m : cluster_map) (c : Z) (r : SearchResult) :
  keys (add_to_cluster m c r)
  = if existsb (Z.eqb c) (keys m) then keys m else (keys m ++ [c])%list.
Proof.
  induction m as [|[k v] m IH]; [reflexivity |].
  rewrite add_to_cluster_cons. simpl existsb. rewrite (Z.eqb_sym c k).
  destruct (k =? c); [reflexivity |].
  change (keys ((k, v) :: add_to_cluster m c r))
    with (k :: keys (add_to_cluster m c r)).
  rewrite IH. change (keys ((k, v) :: m)) with (k :: keys m). simpl.
  now destruct (existsb (Z.eqb c) (keys m)).
Qed.

Lemma keys_build (results : list SearchResult) :
  forall labels m0 m,
    build_cluster_map results labels m0 = Returned m ->
    keys m
    = fold_left
        (fun seen c =>
           if existsb (Z.eqb c) seen then seen else (seen ++ [c])%list)
        (firstn (length results) labels) (keys m0).
Proof.
  induction results as [|r results IH]; intros labels m0 m H.
  - injection H as <-. reflexivity.
  - destruct labels as [|l labels]; [discriminate |].
    simpl in H. apply IH in H. rewrite H, keys_add_first_seen. reflexivity.
Qed.

Lemma cluster_infos_by_keys (m : cluster_map) :
  NoDup (keys m) ->
  cluster_infos m
  = map (fun c => {| name := cluster_name c (members_of m c);
                     count := len (members_of m c) |})
      (keys m).
Proof.
  induction m as [|[k v] m IH]; intros Hnd; [reflexivity |].
  inversion Hnd as [|? ? Hnotin Hnd']; subst.
  unfold cluster_infos, keys. simpl map. f_equal.
  - unfold members_of. simpl. now rewrite Z.eqb_refl.
  - fold (cluster_infos m). rewrite (IH Hnd'). apply map_ext_in.
    intros c Hc. unfold members_of. simpl.
    destruct (k =? c) eqn:E; [| reflexivity].
    apply Z.eqb_eq in E. subst k. contradiction.
Qed.

Lemma cluster_infos_total (m : cluster_map) :
  fold_right Z.add 0 (map count (cluster_infos m)) = Z.of_nat (population m).
Proof.
  unfold population. induction m as [|[k v] m IH]; [reflexivity |].
  simpl. rewrite length_app, IH. unfold len. lia.
Qed.

(** X13: When clustering completes there is one summary per distinct label, in
    the order in which the labels first occur; each gives the
    representative name and the number of results of its cluster, and the
    counts add up to the number of results. *)
Theorem cluster_summaries (svc : Services) (results : list SearchResult)
    (labels : list Z) :
  (2 <= length results)%nat ->
  dbscan_labels svc (map content results) = Returned labels ->
  (length results <= length labels)%nat ->
  exists clustered infos,
    _cluster_results svc results = Returned (clustered, infos) /\
    infos
    = map (fun c =>
             {| name := cluster_name c (cluster_members c results labels);
                count := len (cluster_members c results labels) |})
        (first_seen (firstn (length results) labels)) /\
    fold_right Z.add 0 (map count infos) = len results.
Proof.
  intros H2 Hl Hlen.
  destruct (cluster_results_completed svc results labels H2 Hl Hlen)
    as [m [Hb [Hr [Hm [Hnd _]]]]].
  exists (reorganize (name_clusters m)), (cluster_infos m).
  split; [exact Hr |]. split.
  - rewrite (cluster_infos_by_keys m Hnd), (keys_build _ _ _ _ Hb).
    apply map_ext. intros c. now rewrite Hm.
  - rewrite cluster_infos_total.
    destruct (population_build results labels [] m Hb) as [Hp _].
    rewrite Hp. reflexivity.
Qed.

Lemma cluster_summaries_witness :
  let results := [sample_result "d1" "one" "a" 0.5;
                  sample_result "d2" "two" "" 0.9;
                  sample_result "d3" "three" "c" 0.7] in
  let svc := sample_services (Returned []) (Returned []) None
               (Returned [1; 0; 1]) in
  exists clustered,
    _cluster_results svc results
    = Returned (clustered,
                [{| name := lit "c"; count := 2 |};
                 {| name := lit "聚类 1"; count := 1 |}]).
Proof.
  intros results svc.
  destruct (cluster_summaries svc results [1; 0; 1])
    as [clustered [infos [Hr [Hi _]]]].
  - simpl. lia.
  - reflexivity.
  - simpl. lia.
  - exists clustered. rewrite Hr, Hi. reflexivity.
Defined.

End ClusterMore.

(** ** Reranking, beyond the claims *)

Section RerankMore.

Local Open Scope float_scope.

Lemma clamp_in_unit_interval (x : float) :
  in_unit_interval (RerankingService.clamp x).
Proof.
  unfold in_unit_interval, RerankingService.clamp, PyFloat.max2, PyFloat.min2.
  destruct (x <? 1) eqn:E1.
  - destruct (0 <? x) eqn:E0.
    + split; now apply ltb_leb.
    + split; reflexivity.
  - replace (0 <? 1) with true by reflexivity. split; reflexivity.
Qed.

Lemma rerank_returns (model : option RerankingService.bge_model)
    (query : pystr) (texts : list pystr) :
  exists scores,
    RerankingService.rerank model query texts = Returned scores /\
    Forall in_unit_interval scores.
Proof.
  unfold RerankingService.rerank.
  assert (Hone : Forall in_unit_interval (repeat 1 (length texts))).
  { apply Forall_forall. intros s Hs. apply repeat_spec in Hs. subst s.
    split; reflexivity. }
  destruct model as [compute |]; simpl; [| eauto].
  destruct (compute query texts) as [similarities | e]; simpl; [| eauto].
  eexists. split; [reflexivity |].
  apply Forall_forall. intros s Hs. apply in_map_iff in Hs.
  destruct Hs as [x [<- _]]. apply clamp_in_unit_interval.
Qed.

(** X14: Whatever the model computes (NaN and infinities included), every score
    [rerank] returns lies in [0, 1]. *)
Theorem rerank_scores_in_unit_interval
    (model : option RerankingService.bge_model) (query : pystr)
    (texts : list pystr) :
  exists scores,
    RerankingService.rerank model query texts = Returned scores /\
    Forall in_unit_interval scores.
Proof. apply rerank_returns. Qed.

(** X15: In the service that [SearchService.init] builds, a model that is not
    loaded, or whose call errors, makes [_rerank_results] give every result
    the score 1.0 and keep the order of the list. *)
Theorem rerank_unavailable_keeps_order (logs : list SearchLog)
    (vector fulltext : pystr -> list pystr -> Z -> outcome (list Hit))
    (model : option RerankingService.bge_model)
    (labels : list pystr -> outcome (list Z))
    (query : pystr) (results : list SearchResult) :
  (model = None \/
   exists compute e,
     model = Some compute /\ compute query (map content results) = Raised e) ->
  _rerank_results (init logs vector fulltext model labels) query results
  = Returned (map (fun r => with_score r 1.0) results).
Proof.
  intros H. apply rerank_results_fallback_keeps_order. simpl.
  unfold RerankingService.rerank.
  destruct H as [-> | [compute [e [-> E]]]]; simpl; [reflexivity |].
  now rewrite E.
Qed.

Lemma rerank_unavailable_keeps_order_witness :
  let results := [sample_result "d1" "one" "a" 0.8;
                  sample_result "d2" "two" "b" 0.9] in
  _rerank_results (sample_services (Returned []) (Returned []) None
                     (Returned []))
    (lit "q") results
  = Returned (map (fun r => with_score r 1.0) results).
Proof.
  intros results.
  apply (rerank_unavailable_keeps_order [] _ _ None _ (lit "q") results).
  now left.
Defined.

Lemma assign_scores_full (results : list SearchResult) :
  forall scores,
    (length results <= length scores)%nat ->
    assign_scores results scores = (rescored results scores, true).
Proof.
  induction results as [|r results IH]; intros scores H; [reflexivity |].
  destruct scores as [|s scores]; [simpl in H; lia |].
  simpl in *. rewrite IH by lia. reflexivity.
Qed.

Lemma assign_scores_short (results : list SearchResult) :
  forall scores,
    (length scores < length results)%nat ->
    assign_scores results scores
    = ((rescored results scores ++ skipn (length scores) results)%list, false).
Proof.
  induction results as [|r results IH]; intros scores H;
    [simpl in H; lia |].
  destruct scores as [|s scores]; [reflexivity |].
  simpl in *. rewrite IH by lia. reflexivity.
Qed.

(** X16: When the reranking service returns a score for every result, and the
    scores are numbers, [_rerank_results] returns the results carrying
    their new scores, in descending order of score. *)
Theorem rerank_results_rescored (svc : Services) (query : pystr)
    (results : list SearchResult) (scores : list float) :
  reranking_service svc query (map content results) = Returned scores ->
  (length results <= length scores)%nat ->
  Forall (fun s => is_number s = true) scores ->
  exists reranked,
    _rerank_results svc query results = Returned reranked /\
    Permutation reranked (rescored results scores) /\
    descending score reranked.
Proof.
  intros Hr Hlen Hn. unfold _rerank_results.
  rewrite Hr, (assign_scores_full results scores Hlen).
  eexists. split; [reflexivity |]. split; [apply sort_desc_perm |].
  apply sort_desc_descending. apply Forall_forall. intros r Hin.
  unfold rescored in Hin. apply in_map_iff in Hin.
  destruct Hin as [[r0 s] [<- Hin]]. simpl.
  apply in_combine_r in Hin. rewrite Forall_forall in Hn. now apply Hn.
Qed.

Lemma rerank_results_rescored_witness :
  let results := [sample_result "d1" "one" "a" 0.9;
                  sample_result "d2" "two" "b" 0.8] in
  let svc := sample_services (Returned []) (Returned [])
               (Some (fun _ _ => Returned [0.25; 0.75])) (Returned []) in
  exists reranked,
    _rerank_results svc (lit "q") results = Returned reranked /\
    Permutation reranked (rescored results [0.25; 0.75]) /\
    descending score reranked.
Proof.
  intros results svc.
  apply (rerank_results_rescored svc (lit "q") results [0.25; 0.75]).
  - reflexivity.
  - simpl. lia.
  - repeat constructor.
Defined.

(** X17: When the reranking service returns fewer scores than there are results,
    the [IndexError] of the loop is absorbed after the first scores have
    been written: the list comes back in its original order, its leading
    results carrying the new scores and the others their old ones. *)
Theorem rerank_results_short_scores (svc : Services) (query : pystr)
    (results : list SearchResult) (scores : list float) :
  reranking_service svc query (map content results) = Returned scores ->
  (length scores < length results)%nat ->
  _rerank_results svc query results
  = Returned (rescored results scores ++ skipn (length scores) results)%list.
Proof.
  intros Hr Hlen. unfold _rerank_results.
  now rewrite Hr, (assign_scores_short results scores Hlen).
Qed.

Lemma rerank_results_short_scores_witness :
  let results := [sample_result "d1" "one" "a" 0.5;
                  sample_result "d2" "two" "b" 0.8] in
  let svc := sample_services (Returned []) (Returned [])
               (Some (fun _ _ => Returned [0.25])) (Returned []) in
  _rerank_results svc (lit "q") results
  = Returned [with_score (sample_result "d1" "one" "a" 0.5) 0.25;
              sample_result "d2" "two" "b" 0.8].
Proof.
  intros results svc.
  apply (rerank_results_short_scores svc (lit "q") results [0.25]).
  - reflexivity.
  - simpl. lia.
Defined.

Lemma gather_returns {A : Type} (tasks : list (outcome A)) :
  Forall (fun t => exists x, t = Returned x) tasks ->
  exists xs,
    RerankingService.gather tasks = Returned xs /\
    Forall2 (fun t x => t = Returned x) tasks xs.
Proof.
  induction 1 as [|t tasks [x Hx] _ [xs [Hg Hf]]]; simpl.
  - exists []. split; [reflexivity | constructor].
  - exists (x :: xs). rewrite Hx, Hg. split; [reflexivity |].
    now constructor.
Qed.

(** X18: [batch_rerank] never raises.  It returns one score list for each pair
    of a query and its texts, as many as the shorter of the two inputs
    has, and each is what [rerank] returns for that pair alone: a pair whose
    model call errors gets all 1.0 and leaves the others as they are. *)
Theorem batch_rerank_pairs (model : option RerankingService.bge_model)
    (queries : list pystr) (texts_list : list (list pystr)) :
  exists scores_list,
    RerankingService.batch_rerank model queries texts_list
    = Returned scores_list /\
    length scores_list = Nat.min (length queries) (length texts_list) /\
    Forall2
      (fun qt scores =>
         RerankingService.rerank model (fst qt) (snd qt) = Returned scores)
      (List.combine queries texts_list) scores_list.
Proof.
  unfold RerankingService.batch_rerank.
  destruct (gather_returns
              (map (fun qt => RerankingService.rerank model (fst qt) (snd qt))
                 (List.combine queries texts_list)))
    as [xs [Hg Hf]].
  { apply Forall_forall. intros t Ht. apply in_map_iff in Ht.
    destruct Ht as [[q texts] [<- _]].
    destruct (rerank_returns model q texts) as [scores [Hs _]].
    now exists scores. }
  exists xs. cbv zeta. rewrite Hg. split; [reflexivity |].
  assert (Hf' : Forall2
                  (fun qt scores =>
                     RerankingService.rerank model (fst qt) (snd qt)
                     = Returned scores)
                  (List.combine queries texts_list) xs).
  { clear Hg. revert xs Hf.
    induction (List.combine queries texts_list) as [|qt l IH]; intros xs Hf.
    - inversion Hf. constructor.
    - inversion Hf as [|? x ? xs' Hx Hrest]; subst.
      constructor; [exact Hx |]. now apply IH. }
  split; [| exact Hf'].
  rewrite <- (Forall2_length Hf'). apply length_combine.
Qed.

End RerankMore.

(** ** Orchestration, beyond the claims *)

Section SearchMore.

Local Open Scope string_scope.
Local Open Scope float_scope.

(** X19: A strategy other than "auto", "semantic", "fulltext" and "hybrid" makes
    [search] raise a [ValueError] naming it, without consulting any
    collaborator; the strategy is recorded as the one used all the same. *)
Theorem search_unsupported_strategy (svc : Services) (self : State)
    (query : pystr) (kbs : list pystr) (strategy : string) (sw fw : float)
    (max_results : Z) (ms : float) (rr cl : bool) :
  ~ In strategy ("auto" :: strategy_names) ->
  search svc self query kbs strategy sw fw max_results ms rr cl
  = (Raised (ValueError (lit "不支持的检索策略: " ++ lit strategy)%list),
     {| strategy_used := strategy; clusters := clusters self |}).
Proof.
  intros H. unfold search, resolve_strategy, retrieve.
  assert (Hne : forall s, In s ("auto" :: strategy_names) ->
                          String.eqb strategy s = false).
  { intros s Hs. apply String.eqb_neq. intros ->. contradiction. }
  rewrite (Hne "auto") by (simpl; auto).
  rewrite (Hne "semantic"), (Hne "fulltext"), (Hne "hybrid")
    by (simpl; auto).
  reflexivity.
Qed.

Lemma search_unsupported_strategy_witness :
  fst (search (sample_services (Returned []) (Returned []) None (Returned []))
         sample_state (lit "q") [] "bm25"
         0.7 0.3 10 0.7 true true)
  = Raised (ValueError (lit "不支持的检索策略: bm25")).
Proof.
  rewrite (search_unsupported_strategy
             (sample_services (Returned []) (Returned []) None (Returned []))
             sample_state
             (lit "q") [] "bm25" 0.7 0.3 10 0.7 true true).
  - reflexivity.
  - simpl. intros [H | [H | [H | [H | []]]]]; discriminate H.
Defined.

Lemma leb_not_ltb (x y : float) : (x <=? y) = true -> (y <? x) = false.
Proof. to_spec. sf_cases; fold Pos.compare in *; cmp_cases. Qed.

Lemma retrieve_not_below (svc : Services) (query : pystr) (kbs : list pystr)
    (strategy : string) (sw fw : float) (max_results : Z) (ms : float)
    (results : list SearchResult) :
  retrieve svc query kbs strategy sw fw max_results ms = Returned results ->
  Forall (fun r => (score r <? ms) = false) results.
Proof.
  unfold retrieve.
  destruct (String.eqb strategy "semantic").
  { unfold _semantic_search, VectorService.search.
    destruct (vector_hits svc query kbs (max_results * 2)); simpl;
      [| discriminate].
    intros [= <-]. apply collect_hits_not_below. }
  destruct (String.eqb strategy "fulltext").
  { unfold _fulltext_search, FulltextService.search.
    destruct (fulltext_hits svc query kbs (max_results * 2)); simpl;
      [| discriminate].
    intros [= <-]. apply collect_hits_not_below. }
  destruct (String.eqb strategy "hybrid"); [| discriminate].
  rewrite hybrid_search_falls_back. unfold _legacy_hybrid_search.
  destruct (_semantic_search svc query kbs (max_results * 2) (ms * 0.8));
    simpl; [| discriminate].
  destruct (_fulltext_search svc query kbs (max_results * 2) (ms * 0.8));
    simpl; [| discriminate].
  intros [= <-].
  apply (Forall_impl _ (fun r H => leb_not_ltb ms (score r) H)).
  apply fuse_scores_reach_min.
Qed.

Lemma slice_to_incl {A : Type} (l : list A) (n : Z) (x : A) :
  In x (slice_to l n) -> In x l.
Proof. unfold slice_to. destruct (n <? 0)%Z; apply firstn_incl. Qed.

Lemma cluster_stage_scores (svc : Services) (cl : bool)
    (previous : list ClusterInfo) (results clustered : list SearchResult)
    (infos : list ClusterInfo) :
  cluster_stage svc cl previous results = Returned (clustered, infos) ->
  forall r, In r clustered -> exists r0, In r0 results /\ score r = score r0.
Proof.
  unfold cluster_stage. intros H r Hr.
  destruct (cl && (1 <? len results)%Z).
  - destruct (cluster_results_perm svc results) as [out [infos' [Ho Hp]]].
    rewrite Ho in H. injection H as <- <-.
    assert (Hin : In (drop_cluster r) (map drop_cluster results))
      by (apply (Permutation_in _ Hp); now apply in_map).
    apply in_map_iff in Hin. destruct Hin as [r0 [Heq Hin]].
    exists r0. split; [exact Hin |].
    change (score (drop_cluster r) = score (drop_cluster r0)).
    now rewrite Heq.
  - injection H as <- <-. now exists r.
Qed.

(** X20: With reranking off, [search] never returns a result whose score is
    below [min_score], whatever the strategy and whether or not the results
    are clustered.  (With reranking on, the scores are the reranker's and
    [min_score] is not applied to them.) *)
Theorem search_without_reranking_keeps_min_score (svc : Services)
    (self : State) (query : pystr) (kbs : list pystr) (strategy : string)
    (sw fw : float) (max_results : Z) (ms : float) (cl : bool)
    (final : list SearchResult) :
  fst (search svc self query kbs strategy sw fw max_results ms false cl)
  = Returned final ->
  Forall (fun r => (score r <? ms) = false) final.
Proof.
  unfold search.
  destruct (retrieve svc query kbs (resolve_strategy svc query strategy)
              sw fw max_results ms) as [results | e] eqn:Hret;
    [| discriminate].
  pose proof (retrieve_not_below _ _ _ _ _ _ _ _ _ Hret) as Hres.
  unfold rerank_stage. simpl andb. cbv iota. simpl clusters.
  destruct (cluster_stage svc cl (clusters self) results)
    as [[clustered infos] | e] eqn:Hc; [| discriminate].
  simpl. intros [= <-]. apply Forall_forall. intros r Hr.
  apply slice_to_incl in Hr.
  destruct (cluster_stage_scores _ _ _ _ _ _ Hc r Hr) as [r0 [Hin Hs]].
  rewrite Hs. rewrite Forall_forall in Hres. now apply Hres.
Qed.

Lemma search_without_reranking_keeps_min_score_witness :
  let svc := sample_services
               (Returned [sample_hit "d1" "one" "a" 0.9;
                          sample_hit "d2" "two" "b" 0.6;
                          sample_hit "d3" "three" "c" 0.75])
               (Returned []) None (Returned [0; 0]%Z) in
  exists final,
    fst (search svc sample_state (lit "q") [] "semantic" 0.7 0.3 10 0.7
           false true) = Returned final /\
    Forall (fun r => (score r <? 0.7) = false) final.
Proof.
  intros svc. eexists. split; [reflexivity |].
  apply (search_without_reranking_keeps_min_score svc sample_state (lit "q")
           [] "semantic" 0.7 0.3 10 0.7 true).
  reflexivity.
Defined.

End SearchMore.

(** ** The search endpoint *)

Section EndpointFacts.

Local Open Scope string_scope.

Lemma lstrip_nil_iff (s : pystr) :
  Api.lstrip s = [] <-> forallb is_space s = true.
Proof.
  induction s as [|c s IH]; simpl; [tauto |].
  destruct (is_space c); simpl; [exact IH |].
  split; discriminate.
Qed.

Lemma lstrip_head (s : pystr) (c : N) (t : pystr) :
  Api.lstrip s = c :: t -> is_space c = false.
Proof.
  induction s as [|x s IH]; simpl; [discriminate |].
  destruct (is_space x) eqn:E; [exact IH |].
  intros [= <- _]. exact E.
Qed.

Lemma forallb_rev {A : Type} (p : A -> bool) (l : list A) :
  forallb p (rev l) = forallb p l.
Proof.
  induction l as [|x l IH]; simpl; [reflexivity |].
  rewrite forallb_app, IH. simpl. rewrite andb_true_r. apply andb_comm.
Qed.

Lemma strip_nil_iff (s : pystr) :
  Api.strip s = [] <-> forallb is_space s = true.
Proof.
  unfold Api.strip. rewrite <- lstrip_nil_iff. split.
  - intros H.
    assert (H' : Api.lstrip (rev (Api.lstrip s)) = [])
      by (rewrite <- (rev_involutive (Api.lstrip _)), H; reflexivity).
    apply lstrip_nil_iff in H'. rewrite forallb_rev in H'.
    destruct (Api.lstrip s) as [|c t] eqn:E; [reflexivity |].
    apply lstrip_head in E. simpl in H'. rewrite E in H'. discriminate.
  - intros ->. reflexivity.
Qed.

(** X21: The endpoint answers 400 exactly when the query is empty or made of
    white space only, whatever the cache and the search service would do;
    any other failure it reports is a 500. *)
Theorem endpoint_rejects_blank_query (backend : Api.Backend)
    (request : Api.SearchRequest) (elapsed : float) :
  (forallb is_space (Api.query request) = true <->
   exists detail,
     Api.search backend request elapsed = Api.HTTPException 400 detail) /\
  (forall status_code detail,
     Api.search backend request elapsed
     = Api.HTTPException status_code detail ->
     status_code = 400%Z \/ status_code = 500%Z).
Proof.
  unfold Api.search. rewrite <- strip_nil_iff.
  destruct (Api.strip (Api.query request)) as [|c t] eqn:E.
  - split.
    + split; [intros _; eexists; reflexivity | reflexivity].
    + intros status_code detail [= <- _]. now left.
  - set (cached := if (0 <? _)%Z then _ else None).
    destruct cached as [cached_result |].
    + split; [| discriminate].
      split; [discriminate | intros [detail H]; discriminate].
    + destruct (SearchService.search _ _ _ _ _ _ _ _ _ _ _)
        as [[results | e] service].
      * split; [| discriminate].
        split; [discriminate | intros [detail H]; discriminate].
      * split.
        -- split; [discriminate | intros [detail H]; discriminate].
        -- intros status_code detail [= <- _]. now right.
Qed.

Lemma endpoint_rejects_blank_query_witness :
  exists detail,
    Api.search
      {| Api.vector := fun _ _ _ => Returned [];
         Api.fulltext := fun _ _ _ => Returned [];
         Api.model := None;
         Api.labels := fun _ => Returned [];
         Api.cache := {| CacheService.redis := None;
                         CacheService.REDIS_CACHE_EXPIRE := 3600 |} |}
      {| Api.query := lit "   "; Api.knowledge_base_ids := [];
         Api.strategy := "auto"; Api.semantic_weight := 0.7%float;
         Api.fulltext_weight := 0.3%float; Api.max_results := 10;
         Api.min_score := 0.7%float; Api.use_reranking := true;
         Api.use_clustering := true |}
      0.5%float
    = Api.HTTPException 400 detail.
Proof.
  apply endpoint_rejects_blank_query. reflexivity.
Defined.

Lemma retrieve_supported (svc : Services) (query : pystr) (kbs : list pystr)
    (strategy : string) (sw fw : float) (max_results : Z) (ms : float)
    (results : list SearchResult) :
  retrieve svc query kbs strategy sw fw max_results ms = Returned results ->
  In strategy strategy_names.
Proof.
  unfold retrieve.
  destruct (String.eqb_spec strategy "semantic") as [-> |]; [simpl; auto |].
  destruct (String.eqb_spec strategy "fulltext") as [-> |]; [simpl; auto |].
  destruct (String.eqb_spec strategy "hybrid") as [-> |]; [simpl; auto |].
  discriminate.
Qed.

(** X22: When the cache gives nothing and the endpoint answers with a response,
    the response carries the stripped query, counts its own results (at
    most [max_results] when that is not negative), has no cluster summary
    if clustering was not asked for, and names one of the three strategies
    as the one used; an automatic choice is the one made with an empty
    query log, since each request gets a new service. *)
Theorem endpoint_response (backend : Api.Backend)
    (request : Api.SearchRequest) (elapsed : float)
    (response : Api.SearchResponse) :
  (if (0 <? CacheService.REDIS_CACHE_EXPIRE (Api.cache backend))%Z
   then CacheService.get (Api.cache backend)
          (Api.cache_key (Api.strip (Api.query request)) request)
   else None) = None ->
  Api.search backend request elapsed = Api.Ok response ->
  Api.response_query response = Api.strip (Api.query request) /\
  Api.total_found response = len (Api.results response) /\
  ((0 <= Api.max_results request)%Z ->
   (Api.total_found response <= Api.max_results request)%Z) /\
  (Api.use_clustering request = false -> Api.clusters response = []) /\
  In (Api.strategy_used response) strategy_names /\
  Api.strategy_used response
  = (if String.eqb (Api.strategy request) "auto"
     then _determine_best_strategy [] (Api.strip (Api.query request))
     else Api.strategy request).
Proof.
  intros Hmiss. unfold Api.search.
  destruct (Api.strip (Api.query request)) as [|c t] eqn:E; [discriminate |].
  rewrite Hmiss. unfold SearchService.search.
  set (svc := Api.get_search_service backend).
  set (chosen := resolve_strategy svc (c :: t) (Api.strategy request)).
  destruct (retrieve svc (c :: t) (Api.knowledge_base_ids request) chosen
              (Api.semantic_weight request) (Api.fulltext_weight request)
              (Api.max_results request) (Api.min_score request))
    as [retrieved | e] eqn:Hret; [| discriminate].
  destruct (rerank_stage svc (c :: t) (Api.use_reranking request) retrieved)
    as [reranked | e]; [| discriminate].
  destruct (cluster_stage svc (Api.use_clustering request)
              (SearchService.clusters
                 {| SearchService.strategy_used := chosen;
                    SearchService.clusters :=
                      SearchService.clusters Api.new_service |}) reranked)
    as [[clustered infos] | e]; [| discriminate].
  intros [= <-]. simpl. repeat split.
  - intros Hmax. unfold slice_to, len.
    replace (Api.max_results request <? 0)%Z with false
      by (symmetry; apply Z.ltb_ge; lia).
    rewrite length_firstn. lia.
  - intros ->. reflexivity.
  - now apply retrieve_supported in Hret.
Qed.

Lemma endpoint_response_witness :
  let hits := [sample_hit "d1" "one" "a" 0.9; sample_hit "d2" "two" "b" 0.8] in
  let backend :=
    {| Api.vector := fun _ _ _ => Returned hits;
       Api.fulltext := fun _ _ _ => Returned hits;
       Api.model := None;
       Api.labels := fun _ => Returned [0; 0]%Z;
       Api.cache := {| CacheService.redis := None;
                       CacheService.REDIS_CACHE_EXPIRE := 3600 |} |} in
  let request :=
    {| Api.query := lit " kb "; Api.knowledge_base_ids := [];
       Api.strategy := "auto"; Api.semantic_weight := 0.7%float;
       Api.fulltext_weight := 0.3%float; Api.max_results := 1;
       Api.min_score := 0.7%float; Api.use_reranking := true;
       Api.use_clustering := true |} in
  exists response,
    Api.search backend request 0.5%float = Api.Ok response /\
    Api.response_query response = lit "kb" /\
    Api.total_found response = 1%Z /\
    Api.strategy_used response = "hybrid".
Proof.
  intros hits backend request. eexists. split; [reflexivity |].
  destruct (endpoint_response backend request 0.5%float _ eq_refl eq_refl)
    as [Hq [Ht [_ [_ [_ Hs]]]]].
  split; [exact Hq |]. split; [exact Ht | exact Hs].
Defined.

(** X23: The cache key holds the stripped query, the strategy and the
    knowledge bases only: a response cached for one request is returned as
    it is to any request that agrees on those three, whatever its
    [max_results], [min_score], weights and flags, and whatever white space
    surrounds its query. *)
Theorem endpoint_cache_hit_ignores_limits (backend : Api.Backend)
    (first second : Api.SearchRequest) (elapsed : float)
    (cached : Api.SearchResponse) :
  Api.strip (Api.query second) = Api.strip (Api.query first) ->
  Api.strategy second = Api.strategy first ->
  Api.knowledge_base_ids second = Api.knowledge_base_ids first ->
  Api.strip (Api.query first) <> [] ->
  (0 < CacheService.REDIS_CACHE_EXPIRE (Api.cache backend))%Z ->
  CacheService.get (Api.cache backend)
    (Api.cache_key (Api.strip (Api.query first)) first) = Some cached ->
  Api.search backend second elapsed = Api.Ok cached.
Proof.
  intros Hq Hs Hk Hne Hexp Hget. unfold Api.search. rewrite Hq.
  destruct (Api.strip (Api.query first)) as [|c t] eqn:E; [contradiction |].
  replace (0 <? CacheService.REDIS_CACHE_EXPIRE (Api.cache backend))%Z
    with true by (symmetry; now apply Z.ltb_lt).
  replace (Api.cache_key (c :: t) second) with (Api.cache_key (c :: t) first)
    by (unfold Api.cache_key; now rewrite Hs, Hk).
  now rewrite Hget.
Qed.

Lemma endpoint_cache_hit_ignores_limits_witness :
  let cached :=
    {| Api.response_query := lit "kb"; Api.results := [];
       Api.strategy_used := "hybrid"; Api.total_found := 0;
       Api.clusters := []; Api.response_time := 0.5%float |} in
  let backend :=
    {| Api.vector := fun _ _ _ => Returned [];
       Api.fulltext := fun _ _ _ => Returned [];
       Api.model := None;
       Api.labels := fun _ => Returned [];
       Api.cache := {| CacheService.redis :=
                         Some (fun _ => Returned (Some cached));
                       CacheService.REDIS_CACHE_EXPIRE := 3600 |} |} in
  let request (text : string) (n : Z) :=
    {| Api.query := lit text; Api.knowledge_base_ids := [];
       Api.strategy := "auto"; Api.semantic_weight := 0.7%float;
       Api.fulltext_weight := 0.3%float; Api.max_results := n;
       Api.min_score := 0.7%float; Api.use_reranking := true;
       Api.use_clustering := true |} in
  Api.search backend (request " kb " 50%Z) 0.5%float = Api.Ok cached.
Proof.
  intros cached backend request.
  apply (endpoint_cache_hit_ignores_limits backend (request "kb" 10%Z)
           (request " kb " 50%Z) 0.5%float cached);
    [reflexivity | reflexivity | reflexivity | discriminate
    | reflexivity | reflexivity].
Defined.

End EndpointFacts.
